(** * hform-validator: the schema validator, embedded and verified

    The development follows [validator.ts]: the class [Validator] with its
    private methods [validateHelper], [applyDefaultValidator], [validateEnum],
    [validateArray], [validateCompositeValidator] and the public [validate].

    The program is dynamically typed at run time (a rule is recognised by
    probing its shape with [typeof], [instanceof], [in] and [Array.isArray]),
    so schemas, rules and inputs are all drawn from one universe of
    JavaScript values.  Exceptions are modelled by an error monad; the two
    console calls ([console.warn], [console.log]) do not influence any
    returned value and are left out.

    Objects are plain data objects: their properties are data properties
    with ordinary names, and their prototypes are the built-in ones
    (accessors, proxies and the property name [__proto__] are outside the
    model).  Neither the schema nor the input is mutated by the validator,
    so an object is given by its address and the properties it has. *)

From Stdlib Require Import List String Ascii ZArith Bool Arith Lia DecimalString.
From Stdlib Require Import PrimFloat Uint63.
Import ListNotations.
Open Scope string_scope.
Open Scope list_scope.

(** ** Values *)

(** Numbers are IEEE 754 binary64 floating-point numbers, Rocq's primitive
    [float].  Objects, arrays and functions are references: they carry the
    address that identifies them, and equality on them is equality of
    addresses.  A plain object lists its own enumerable properties in
    enumeration order; an array is dense.  Strings are sequences of code
    units. *)
Unset Elimination Schemes.

Inductive value :=
| VUndefined
| VNull
| VBool (b : bool)
| VNum (n : float)
| VStr (s : string)
| VSymbol (id : nat)
| VBigInt (z : Z)
| VObj (addr : nat) (props : list (string * value))
| VArr (addr : nat) (items : list value)
| VFun (addr : nat).

(** The result object of [validateHelper]: every entry is a boolean or the
    result object of a nested call. *)
Inductive ValidationResult :=
| RBool (b : bool)
| RTree (fields : list (string * ValidationResult)).

Set Elimination Schemes.

Definition ResultObject := list (string * ValidationResult).

(** ** Exceptions *)

Inductive exn :=
| TypeError
| UserError (tag : nat).

Inductive outcome (A : Type) :=
| Ok (a : A)
| Throw (e : exn).

Arguments Ok {A} a.
Arguments Throw {A} e.

Definition bind {A B} (m : outcome A) (k : A -> outcome B) : outcome B :=
  match m with
  | Ok a => k a
  | Throw e => Throw e
  end.

Notation "x <- m ;; k" := (bind m (fun x => k))
  (at level 61, m at next level, right associativity).

Definition throws {A} (m : outcome A) : Prop := exists e, m = Throw e.

(** ** Primitive operations of the language *)

Definition typeof (v : value) : string :=
  match v with
  | VUndefined => "undefined"
  | VNull => "object"
  | VBool _ => "boolean"
  | VNum _ => "number"
  | VStr _ => "string"
  | VSymbol _ => "symbol"
  | VBigInt _ => "bigint"
  | VObj _ _ => "object"
  | VArr _ _ => "object"
  | VFun _ => "function"
  end.

Definition isNaN (n : float) : bool := negb (PrimFloat.eqb n n).

(** [a === b] *)
Definition strictEquals (a b : value) : bool :=
  match a, b with
  | VUndefined, VUndefined => true
  | VNull, VNull => true
  | VBool x, VBool y => Bool.eqb x y
  | VNum x, VNum y => PrimFloat.eqb x y
  | VStr x, VStr y => String.eqb x y
  | VSymbol x, VSymbol y => Nat.eqb x y
  | VBigInt x, VBigInt y => Z.eqb x y
  | VObj x _, VObj y _ => Nat.eqb x y
  | VArr x _, VArr y _ => Nat.eqb x y
  | VFun x, VFun y => Nat.eqb x y
  | _, _ => false
  end.

(** The comparison of [Array.prototype.includes] (SameValueZero): strict
    equality, except that [NaN] is the same value as [NaN]. *)
Definition sameValueZero (a b : value) : bool :=
  match a, b with
  | VNum x, VNum y => PrimFloat.eqb x y || (isNaN x && isNaN y)
  | _, _ => strictEquals a b
  end.

Definition isArray (v : value) : bool :=
  match v with
  | VArr _ _ => true
  | _ => false
  end.

(** [ToBoolean(v)], the truth value of [v] in a condition. *)
Definition toBoolean (v : value) : bool :=
  match v with
  | VUndefined | VNull => false
  | VBool b => b
  | VNum n => negb (PrimFloat.eqb n 0%float || isNaN n)
  | VStr s => negb (String.eqb s "")
  | VBigInt z => negb (Z.eqb z 0)
  | _ => true
  end.

(** [a && b] where evaluating [b] may throw. *)
Definition andAlso (a : bool) (b : outcome bool) : outcome bool :=
  if a then b else Ok false.

(** [v instanceof Object] *)
Definition instanceofObject (v : value) : bool :=
  match v with
  | VObj _ _ | VArr _ _ | VFun _ => true
  | _ => false
  end.

(** Association lists for the properties of an object. *)
Fixpoint assoc {A} (key : string) (l : list (string * A)) : option A :=
  match l with
  | [] => None
  | (k, a) :: l' => if String.eqb key k then Some a else assoc key l'
  end.

Definition keys {A} (l : list (string * A)) : list string := map fst l.

(** [o[key] = a] on the properties of an object. *)
Fixpoint setProp {A} (key : string) (a : A) (l : list (string * A))
  : list (string * A) :=
  match l with
  | [] => [(key, a)]
  | (k, b) :: l' =>
      if String.eqb key k then (k, a) :: l' else (k, b) :: setProp key a l'
  end.

(** The property name of an array index. *)
Definition indexKey (i : nat) : string :=
  NilEmpty.string_of_uint (Nat.to_uint i).

(** Indexed elements of an array or of a string, from index [i] on. *)
Fixpoint indexed {A} (i : nat) (l : list A) : list (string * A) :=
  match l with
  | [] => []
  | a :: l' => (indexKey i, a) :: indexed (S i) l'
  end.

Definition codeUnits (s : string) : list value :=
  map (fun c => VStr (String c EmptyString)) (list_ascii_of_string s).

Definition lengthOf {A} (l : list A) : value :=
  VNum (PrimFloat.of_uint63 (Uint63.of_Z (Z.of_nat (List.length l)))).

(** Own properties, the non-enumerable [length] of arrays and strings
    included.  Functions are opaque callables: their own properties are not
    modelled. *)
Definition ownProps (v : value) : list (string * value) :=
  match v with
  | VObj _ props => props
  | VArr _ items => indexed 0 items ++ [("length", lengthOf items)]
  | VStr s => indexed 0 (codeUnits s) ++ [("length", lengthOf (codeUnits s))]
  | _ => []
  end.

(** [Object.prototype.hasOwnProperty.call(v, key)], for a [v] that is
    neither [undefined] nor [null]. *)
Definition hasOwnProperty (v : value) (key : string) : bool :=
  match assoc key (ownProps v) with
  | Some _ => true
  | None => false
  end.

(** [v[key]].  Reading a property of [undefined] or [null] throws.  The
    properties inherited from the built-in prototypes are read as
    [undefined]: the validator consults the value of a key that is not an
    own property only to compare it with [undefined] and with [null], and no
    inherited property of a built-in prototype is [null]. *)
Definition getProp (v : value) (key : string) : outcome value :=
  match v with
  | VUndefined | VNull => Throw TypeError
  | _ => match assoc key (ownProps v) with
         | Some x => Ok x
         | None => Ok VUndefined
         end
  end.

(** [key in v]: throws unless [v] is an object.  For the objects of the
    model and the keys the validator probes, the prototype chain adds
    nothing to the own properties. *)
Definition propIn (key : string) (v : value) : outcome bool :=
  if instanceofObject v then Ok (hasOwnProperty v key) else Throw TypeError.

(** The enumerable properties visited by [for (const key in v)], each with
    [v[key]]. *)
Definition forInEntries (v : value) : list (string * value) :=
  match v with
  | VObj _ props => props
  | VArr _ items => indexed 0 items
  | VStr s => indexed 0 (codeUnits s)
  | _ => []
  end.

(** [Object.values(v)] *)
Definition objectValues (v : value) : outcome (list value) :=
  match v with
  | VUndefined | VNull => Throw TypeError
  | _ => Ok (map snd (forInEntries v))
  end.

(** [items.every(callback)]: stops at the first element the callback
    rejects. *)
Fixpoint every (callback : value -> outcome bool) (items : list value)
  : outcome bool :=
  match items with
  | [] => Ok true
  | item :: rest =>
      b <- callback item ;;
      if b then every callback rest else Ok false
  end.

(** [items.includes(v)] *)
Definition includes (items : list value) (v : value) : bool :=
  existsb (fun x => sameValueZero x v) items.

Section Validator.

(** The functions of the heap: [fenv a v] is what calling the function at
    address [a] on [v] does.  Validators are typed as returning a
    boolean; they may throw. *)
Variable fenv : nat -> value -> outcome bool.

(** [f(arg)] *)
Definition call (f arg : value) : outcome bool :=
  match f with
  | VFun a => fenv a arg
  | _ => Throw TypeError
  end.

Definition applyDefaultValidator (type : string) (value : value) : bool :=
  if String.eqb type "string" then String.eqb (typeof value) "string"
  else if String.eqb type "number" then String.eqb (typeof value) "number"
  else if String.eqb type "boolean" then String.eqb (typeof value) "boolean"
  else if String.eqb type "object" then
    String.eqb (typeof value) "object" && negb (strictEquals value VNull)
  else if String.eqb type "symbol" then String.eqb (typeof value) "symbol"
  else if String.eqb type "bigint" then String.eqb (typeof value) "bigint"
  else if String.eqb type "undefined" then
    String.eqb (typeof value) "undefined"
  else if String.eqb type "null" then strictEquals value VNull
  else false.

Definition validateEnum (value enumType : value) : outcome bool :=
  vs <- objectValues enumType ;;
  Ok (includes vs value).

Definition validateArray (value itemType : value) : outcome bool :=
  match value with
  | VArr _ items =>
      match itemType with
      | VStr t => every (fun item => Ok (applyDefaultValidator t item)) items
      | _ =>
          hasEnum <- propIn "enum" itemType ;;
          if hasEnum then
            every (fun item =>
                     e <- getProp itemType "enum" ;;
                     validateEnum item e) items
          else
            every (fun item => call itemType item) items
      end
  | _ => Ok false
  end.

(** The callback that [validateCompositeValidator] gives to [every]. *)
Definition compositeCheck (value validator : value) : outcome bool :=
  match validator with
  | VStr t => Ok (applyDefaultValidator t value)
  | VFun _ => call validator value
  | _ =>
      if toBoolean validator && String.eqb (typeof validator) "object" then
        hasEnum <- propIn "enum" validator ;;
        if hasEnum then
          e <- getProp validator "enum" ;;
          validateEnum value e
        else
          hasItemType <- propIn "itemType" validator ;;
          if hasItemType then
            t <- getProp validator "itemType" ;;
            validateArray value t
          else Ok false
      else Ok false
  end.

Definition validatorArray (validators : value) : list value :=
  match validators with
  | VArr _ items => items
  | _ => [validators]
  end.

Definition validateCompositeValidator (value validators : value)
  : outcome bool :=
  every (compositeCheck value) (validatorArray validators).

(** The body of the [for ... in] loop of [validateHelper] for one key:
    what is stored at [result[key]].  [nested value] stands for the
    recursive call [this.validateHelper(value, validatorOrType)]. *)
Definition validateField (nested : value -> outcome ResultObject)
           (input : value) (key : string) (validatorOrType : value)
  : outcome ValidationResult :=
  value <- getProp input key ;;
  if strictEquals validatorOrType (VStr "undefined") then
    Ok (RBool (negb (hasOwnProperty input key)
               || strictEquals value VUndefined))
  else if strictEquals validatorOrType (VStr "null") then
    Ok (RBool (strictEquals value VNull))
  else if negb (hasOwnProperty input key) then
    Ok (RBool false)
  else
    match validatorOrType with
    | VFun _ =>
        isValid <- call validatorOrType value ;;
        Ok (RBool isValid)
    | VStr t => Ok (RBool (applyDefaultValidator t value))
    | _ =>
        hasEnum <- andAlso (instanceofObject validatorOrType)
                           (propIn "enum" validatorOrType) ;;
        if hasEnum then
          e <- getProp validatorOrType "enum" ;;
          isValid <- validateEnum value e ;;
          Ok (RBool isValid)
        else
          hasItemType <- andAlso (instanceofObject validatorOrType)
                                 (propIn "itemType" validatorOrType) ;;
          if hasItemType then
            t <- getProp validatorOrType "itemType" ;;
            isValid <- validateArray value t ;;
            Ok (RBool isValid)
          else if String.eqb (typeof value) "object"
                  && negb (strictEquals validatorOrType VUndefined)
                  && negb (strictEquals value VNull)
                  && String.eqb (typeof validatorOrType) "object" then
            r <- nested value ;;
            Ok (RTree r)
          else if isArray validatorOrType then
            isValid <- validateCompositeValidator value validatorOrType ;;
            Ok (RBool isValid)
          else
            Ok (RBool false)
    end.

(** The loop itself, over the entries still to visit, with the result
    object built so far. *)
Fixpoint validateEntries (nested : value -> value -> outcome ResultObject)
         (input : value) (entries : list (string * value))
         (result : ResultObject) : outcome ResultObject :=
  match entries with
  | [] => Ok result
  | (key, validatorOrType) :: rest =>
      r <- validateField (fun value => nested value validatorOrType)
                         input key validatorOrType ;;
      validateEntries nested input rest (setProp key r result)
  end.

(** [validateHelper], by recursion on the schema: the loops over the
    properties of an object and over the indices of an array are
    [validateEntries] written in place.  The elements of a string are
    strings, which are never nested schemas. *)
Fixpoint validateHelper (input schema : value) {struct schema}
  : outcome ResultObject :=
  match schema with
  | VObj _ props =>
      (fix loop (entries : list (string * value)) (result : ResultObject)
         {struct entries} : outcome ResultObject :=
         match entries with
         | [] => Ok result
         | (key, validatorOrType) :: rest =>
             r <- validateField
                    (fun value => validateHelper value validatorOrType)
                    input key validatorOrType ;;
             loop rest (setProp key r result)
         end) props []
  | VArr _ items =>
      (fix loop (i : nat) (rules : list value) (result : ResultObject)
         {struct rules} : outcome ResultObject :=
         match rules with
         | [] => Ok result
         | validatorOrType :: rest =>
             r <- validateField
                    (fun value => validateHelper value validatorOrType)
                    input (indexKey i) validatorOrType ;;
             loop (S i) rest (setProp (indexKey i) r result)
         end) 0 items []
  | VStr s =>
      validateEntries (fun _ _ => Ok []) input (indexed 0 (codeUnits s)) []
  | _ => Ok []
  end.

Definition validate (schema input : value) : outcome ResultObject :=
  validateHelper input schema.

End Validator.

(** ** The schemas and inputs of the test suite and of the examples *)

(** The schema of [validator] in the test file. *)
Definition testSchema : value :=
  VObj 1 [("name", VStr "string"); ("age", VStr "number");
          ("email", VStr "string"); ("other", VStr "undefined");
          ("sx", VObj 2 [("itemType", VStr "string")])].

(** [invalidInput] of the test "should validate an invalid input object". *)
Definition invalidInput : value :=
  VObj 3 [("name", VStr "John Doe"); ("age", VStr "30");
          ("email", VStr "john.doe@example.com")].

(** [validInput] of the test "should validate a valid input object". *)
Definition validInput : value :=
  VObj 4 [("name", VStr "John Doe"); ("age", VNum 30%float);
          ("email", VStr "john.doe@example.com");
          ("sx", VArr 5 [VStr "a"; VStr "b"])].

(** The schema of [xValidator] in the test file and the input of the test
    "should validate a nested input object". *)
Definition nestedTestSchema : value :=
  VObj 50 [("user", VObj 51 [("name", VStr "string");
                             ("age", VStr "number");
                             ("email", VStr "string")]);
           ("product", VObj 52 [("name", VStr "string");
                                ("price", VArr 53 [VStr "number"; VFun 0]);
                                ("id", VArr 54 [VStr "number"; VFun 1])])].

Definition nestedInput : value :=
  VObj 55 [("user", VObj 56 [("name", VStr "John Doe");
                             ("age", VNum 30%float);
                             ("email", VStr "email@gg.com")]);
           ("product", VObj 57 [("name", VStr "product");
                                ("price", VNum 12%float);
                                ("id", VNum 831%float)])].

(** [priceChecker] and [idChecker] of the test file, at addresses 0 and 1.
    Both compare their argument with a constant; the comparison is given on
    numbers, the type the test file declares for the argument, and on
    strings of decimal digits, which it converts to their number. *)
Definition greaterThan (bound : float) (v : value) : outcome bool :=
  match v with
  | VNum n => Ok (PrimFloat.ltb bound n)
  | VStr s =>
      match NilEmpty.uint_of_string s with
      | Some u =>
          Ok (PrimFloat.ltb bound
                            (PrimFloat.of_uint63 (Uint63.of_Z (Z.of_uint u))))
      | None => Ok false
      end
  | _ => Ok false
  end.

Definition testEnv (addr : nat) (v : value) : outcome bool :=
  match addr with
  | 0 => greaterThan 0%float v
  | 1 => greaterThan 10000%float v
  | _ => Throw (UserError addr)
  end.

(** A value is nullish when reading a property of it throws. *)
Definition nullish (v : value) : bool :=
  match v with
  | VUndefined | VNull => true
  | _ => false
  end.

(** A non-null object, as [typeof value === "object" && value !== null]. *)
Definition isNonNullObject (v : value) : bool :=
  String.eqb (typeof v) "object" && negb (strictEquals v VNull).

(** An element passes the item rule of an array descriptor: the three
    callbacks of [validateArray], selected as [validateArray] selects
    them. *)
Definition itemCheck (fenv : nat -> value -> outcome bool)
           (itemType item : value) : outcome bool :=
  match itemType with
  | VStr t => Ok (applyDefaultValidator t item)
  | _ =>
      hasEnum <- propIn "enum" itemType ;;
      if hasEnum then
        e <- getProp itemType "enum" ;;
        validateEnum item e
      else call fenv itemType item
  end.

(** The item rules on which the [in] probe of [validateArray] is defined:
    strings and objects (functions included). *)
Definition isItemRule (itemType : value) : bool :=
  match itemType with
  | VStr _ => true
  | _ => instanceofObject itemType
  end.

(** A schema with one nested schema, [{user: {name: "string"}}]. *)
Definition userSchema : value :=
  VObj 10 [("user", VObj 11 [("name", VStr "string")])].

(** The enum object of the enum descriptor [{enum: {A: "a", B: "b"}}]. *)
Definition abEnum : value := VObj 21 [("A", VStr "a"); ("B", VStr "b")].

(** A schema whose only rule is the list [["object"]]. *)
Definition listRuleSchema : value := VObj 30 [("f", VArr 31 [VStr "object"])].

(** A schema whose array descriptor has an array descriptor for item rule,
    [{tags: {itemType: {itemType: "string"}}}]. *)
Definition nestedArraySchema : value :=
  VObj 40 [("tags", VObj 41 [("itemType",
                               VObj 42 [("itemType", VStr "string")])])].

(** The item rules that the array checker supports: a type tag, a
    predicate, an enum descriptor whose enum has values. *)
Definition supportedItemRule (itemType : value) : bool :=
  match itemType with
  | VStr _ | VFun _ => true
  | VObj _ props =>
      match assoc "enum" props with
      | Some e => negb (nullish e)
      | None => false
      end
  | _ => false
  end.

(** The rules on which the dispatcher cannot fault by itself: an enum
    descriptor has an enum with values, an array descriptor has a supported
    item rule, and the rules of a nested schema and of a list are of that
    kind in turn.  Every other value is dispatched without probing it. *)
Fixpoint wellFormedRule (rule : value) : bool :=
  match rule with
  | VObj _ props =>
      match assoc "enum" props with
      | Some e => negb (nullish e)
      | None =>
          match assoc "itemType" props with
          | Some t => supportedItemRule t
          | None => forallb (fun entry => wellFormedRule (snd entry)) props
          end
      end
  | VArr _ rules => forallb wellFormedRule rules
  | _ => true
  end.

Definition wellFormedSchema (schema : value) : bool :=
  forallb (fun entry => wellFormedRule (snd entry)) (forInEntries schema).

(** ** The unused helper [validateNestedObject] *)

(** The callback that [validateNestedObject] gives to [every]; [recur]
    stands for the recursive call. *)
Definition nestedObjectCheck (recur : value -> outcome bool) (v : value)
  : outcome bool :=
  if strictEquals v (VBool true) then Ok true
  else andAlso (String.eqb (typeof v) "object") (recur v).

(** [validateNestedObject], by recursion on its argument: the two loops are
    [every] over the values of an object and over the elements of an array,
    written in place.  The elements of a string are strings, on which the
    recursive call is not reached. *)
Fixpoint validateNestedObject (obj : value) {struct obj} : outcome bool :=
  match obj with
  | VUndefined | VNull => Throw TypeError
  | VObj _ props =>
      (fix everyValue (l : list (string * value)) {struct l} : outcome bool :=
         match l with
         | [] => Ok true
         | (_, v) :: rest =>
             b <- (if strictEquals v (VBool true) then Ok true
                   else andAlso (String.eqb (typeof v) "object")
                                (validateNestedObject v)) ;;
             if b then everyValue rest else Ok false
         end) props
  | VArr _ items =>
      (fix everyItem (l : list value) {struct l} : outcome bool :=
         match l with
         | [] => Ok true
         | v :: rest =>
             b <- (if strictEquals v (VBool true) then Ok true
                   else andAlso (String.eqb (typeof v) "object")
                                (validateNestedObject v)) ;;
             if b then everyItem rest else Ok false
         end) items
  | VStr s => every (nestedObjectCheck (fun _ => Ok false)) (codeUnits s)
  | _ => Ok true
  end.

(** A value that holds a result of [validateHelper]: a boolean for a
    boolean, and for a tree an object, at any address, with the same keys in
    the same order and values that hold the entries. *)
Fixpoint represents (r : ValidationResult) (v : value) {struct r} : Prop :=
  match r with
  | RBool b => v = VBool b
  | RTree fields =>
      exists a props,
        v = VObj a props
        /\ (fix entries (fs : list (string * ValidationResult))
                (ps : list (string * value)) {struct fs} : Prop :=
              match fs, ps with
              | [], [] => True
              | (k, r') :: fs', (k', v') :: ps' =>
                  k = k' /\ represents r' v' /\ entries fs' ps'
              | _, _ => False
              end) fields props
  end.

(** Every boolean of a result is [true]. *)
Fixpoint allTrue (r : ValidationResult) : bool :=
  match r with
  | RBool b => b
  | RTree fields => forallb (fun entry => allTrue (snd entry)) fields
  end.

(** ** Further definitions for the properties of the dispatcher *)

(** The type tag that a value passes, if any. *)
Definition primitiveTag (v : value) : option string :=
  match v with
  | VUndefined => Some "undefined"
  | VNull => Some "null"
  | VBool _ => Some "boolean"
  | VNum _ => Some "number"
  | VStr _ => Some "string"
  | VSymbol _ => Some "symbol"
  | VBigInt _ => Some "bigint"
  | VObj _ _ | VArr _ _ => Some "object"
  | VFun _ => None
  end.

(** The elements of a list rule that the composite checker does not
    recognise: everything except a string, a function and an object with an
    [enum] or an [itemType] member. *)
Definition unsupportedElement (r : value) : bool :=
  match r with
  | VStr _ | VFun _ => false
  | VObj _ props =>
      match assoc "enum" props, assoc "itemType" props with
      | None, None => true
      | _, _ => false
      end
  | _ => true
  end.

(** The rules that are neither strings, nor objects, nor [null]. *)
Definition unhandledPrimitive (r : value) : bool :=
  match r with
  | VUndefined | VBool _ | VNum _ | VSymbol _ | VBigInt _ => true
  | _ => false
  end.

(** A heap in which every function is [priceChecker]. *)
Definition priceEnv (addr : nat) (v : value) : outcome bool :=
  greaterThan 0%float v.

(** ** Lists of properties *)

Lemma assoc_setProp_same {A} (key : string) (a : A) (l : list (string * A)) :
  assoc key (setProp key a l) = Some a.
Proof.
  induction l as [|[k b] l IH]; simpl.
  - now rewrite String.eqb_refl.
  - destruct (String.eqb key k) eqn:E; simpl; rewrite E; auto.
Qed.

Lemma assoc_setProp_other {A} (k key : string) (a : A) (l : list (string * A)) :
  k <> key -> assoc k (setProp key a l) = assoc k l.
Proof.
  intros Hne. induction l as [|[k' b] l IH]; simpl.
  - apply String.eqb_neq in Hne. now rewrite Hne.
  - destruct (String.eqb key k') eqn:E; simpl.
    + apply String.eqb_eq in E. subst k'.
      apply String.eqb_neq in Hne. now rewrite Hne.
    + now rewrite IH.
Qed.

Lemma keys_setProp {A} (k key : string) (a : A) (l : list (string * A)) :
  In k (keys (setProp key a l)) <-> k = key \/ In k (keys l).
Proof.
  unfold keys. induction l as [|[k' b] l IH]; simpl.
  - intuition.
  - destruct (String.eqb key k') eqn:E; simpl.
    + apply String.eqb_eq in E. subst k'. intuition.
    + rewrite IH. intuition.
Qed.

Lemma keys_setProp_fresh {A} (key : string) (a : A) (l : list (string * A)) :
  ~ In key (keys l) -> keys (setProp key a l) = keys l ++ [key].
Proof.
  unfold keys. induction l as [|[k b] l IH]; simpl; intros Hn; auto.
  destruct (String.eqb key k) eqn:E.
  - apply String.eqb_eq in E. subst. tauto.
  - simpl. f_equal. apply IH. tauto.
Qed.

(** ** The error monad and [every] *)

Lemma bind_Ok {A B} (m : outcome A) (k : A -> outcome B) (b : B) :
  bind m k = Ok b <-> exists a, m = Ok a /\ k a = Ok b.
Proof.
  destruct m; simpl; split.
  - eauto.
  - intros [a' [H1 H2]]. now inversion H1; subst.
  - discriminate.
  - intros [a' [H1 _]]. discriminate.
Qed.

Lemma every_true_iff (f : value -> outcome bool) (l : list value) :
  every f l = Ok true <-> Forall (fun x => f x = Ok true) l.
Proof.
  induction l as [|x l IH]; simpl.
  - split; auto.
  - split.
    + intros H. apply bind_Ok in H. destruct H as [b [Hx Hrest]].
      destruct b; [|discriminate].
      constructor; [exact Hx | now apply IH].
    + intros H. inversion H as [|? ? Hx Hl]; subst.
      rewrite Hx. simpl. now apply IH.
Qed.

(** [every] answers [false] exactly when some element is rejected and all
    the elements before it are accepted. *)
Lemma every_false_iff (f : value -> outcome bool) (l : list value) :
  every f l = Ok false <->
  exists pre x post, l = pre ++ x :: post
                     /\ Forall (fun y => f y = Ok true) pre
                     /\ f x = Ok false.
Proof.
  induction l as [|x l IH]; simpl.
  - split; [discriminate|].
    intros [pre [y [post [H _]]]]. destruct pre; discriminate.
  - split.
    + intros H. apply bind_Ok in H. destruct H as [b [Hx Hrest]].
      destruct b.
      * apply IH in Hrest. destruct Hrest as [pre [y [post [-> [Hp Hy]]]]].
        exists (x :: pre), y, post. repeat split; auto.
      * exists [], x, l. repeat split; auto.
    + intros [pre [y [post [Heq [Hp Hy]]]]].
      destruct pre as [|p pre]; simpl in Heq; inversion Heq; subst.
      * now rewrite Hy.
      * inversion Hp as [|? ? Hp1 Hp2]; subst. rewrite Hp1. simpl.
        apply IH. now exists pre, y, post.
Qed.

(** When the callback returns on every element, so does [every], and the
    answer is the conjunction. *)
Lemma every_total (f : value -> outcome bool) (g : value -> bool)
      (l : list value) :
  (forall x, In x l -> f x = Ok (g x)) -> every f l = Ok (forallb g l).
Proof.
  induction l as [|x l IH]; simpl; intros H; auto.
  rewrite (H x (or_introl eq_refl)). simpl.
  destruct (g x); auto.
Qed.

Lemma every_ext (f g : value -> outcome bool) (l : list value) :
  (forall x, In x l -> f x = g x) -> every f l = every g l.
Proof.
  induction l as [|x l IH]; simpl; intros H; auto.
  rewrite (H x (or_introl eq_refl)).
  destruct (g x) as [[|]|]; simpl; auto.
Qed.

(** ** The dispatcher *)

Section Dispatcher.

Variable fenv : nat -> value -> outcome bool.

Lemma getProp_not_nullish (input : value) (key : string) :
  nullish input = false ->
  getProp input key =
  Ok (match assoc key (ownProps input) with
      | Some x => x
      | None => VUndefined
      end).
Proof.
  destruct input; simpl; try discriminate; intros _;
    try match goal with
        | |- context [assoc ?k ?l] => destruct (assoc k l)
        end;
    reflexivity.
Qed.

Lemma getProp_absent (input : value) (key : string) :
  nullish input = false -> hasOwnProperty input key = false ->
  getProp input key = Ok VUndefined.
Proof.
  intros Hn Hown. rewrite getProp_not_nullish by exact Hn.
  unfold hasOwnProperty in Hown.
  destruct (assoc key (ownProps input)); [discriminate | reflexivity].
Qed.

Lemma strictEquals_tag (rule : value) (tag : string) :
  strictEquals rule (VStr tag) = true <-> rule = VStr tag.
Proof.
  destruct rule; simpl; split; try discriminate; try congruence.
  - intros H. apply String.eqb_eq in H. now subst.
  - intros H. inversion H. apply String.eqb_refl.
Qed.

Lemma strictEquals_not_tag (rule : value) (tag : string) :
  rule <> VStr tag -> strictEquals rule (VStr tag) = false.
Proof.
  intros H. destruct (strictEquals rule (VStr tag)) eqn:E; auto.
  apply strictEquals_tag in E. contradiction.
Qed.

(** A string is never a nested schema: the recursive call is not reached
    for it. *)
Lemma validateField_string (n1 n2 : value -> outcome ResultObject)
      (input : value) (key t : string) :
  validateField fenv n1 input key (VStr t)
  = validateField fenv n2 input key (VStr t).
Proof. reflexivity. Qed.

Lemma validateEntries_strings
      (n1 n2 : value -> value -> outcome ResultObject) (input : value)
      (entries : list (string * value)) (result : ResultObject) :
  Forall (fun e => exists t, snd e = VStr t) entries ->
  validateEntries fenv n1 input entries result
  = validateEntries fenv n2 input entries result.
Proof.
  intros H. revert result.
  induction H as [|[k r] l [t Ht] _ IH]; intros result; simpl; auto.
  simpl in Ht. subst r.
  rewrite (validateField_string _ (fun value => n2 value (VStr t))).
  destruct (validateField fenv _ input k (VStr t)); simpl; auto.
Qed.

Lemma indexed_codeUnits_strings (s : string) (i : nat) :
  Forall (fun e : string * value => exists t, snd e = VStr t)
         (indexed i (codeUnits s)).
Proof.
  unfold codeUnits. revert i.
  induction (list_ascii_of_string s) as [|c l IH]; intros i; simpl;
    constructor; simpl; eauto.
Qed.

(** [validateHelper] is the loop over the entries that [for ... in] visits,
    with itself for the recursive call. *)
Lemma validateHelper_forIn (input schema : value) :
  validateHelper fenv input schema
  = validateEntries fenv (validateHelper fenv) input (forInEntries schema) [].
Proof.
  destruct schema as [| | | |s | | |a props|a items|]; try reflexivity.
  - simpl. apply validateEntries_strings, indexed_codeUnits_strings.
  - simpl. generalize (@nil (string * ValidationResult)).
    induction props as [|[k r] props IH]; intros result; simpl; auto.
    destruct (validateField fenv _ input k r); simpl; auto.
  - simpl. generalize (@nil (string * ValidationResult)). generalize 0.
    induction items as [|r items IH]; intros i result; simpl; auto.
    destruct (validateField fenv _ input (indexKey i) r); simpl; auto.
Qed.

(** The keys of the result are those it had and those visited. *)
Lemma validateEntries_keys (nested : value -> value -> outcome ResultObject)
      (input : value) (entries : list (string * value))
      (result res : ResultObject) :
  validateEntries fenv nested input entries result = Ok res ->
  forall k, In k (keys res) <-> In k (keys result) \/ In k (keys entries).
Proof.
  revert result. induction entries as [|[key rule] rest IH];
    intros result H k; simpl in *.
  - inversion H; subst. tauto.
  - apply bind_Ok in H. destruct H as [r [_ H]].
    rewrite (IH _ H k), keys_setProp. intuition.
Qed.

(** A key that is not visited keeps its entry. *)
Lemma validateEntries_untouched
      (nested : value -> value -> outcome ResultObject)
      (input : value) (entries : list (string * value))
      (result res : ResultObject) (k : string) :
  validateEntries fenv nested input entries result = Ok res ->
  ~ In k (keys entries) -> assoc k res = assoc k result.
Proof.
  revert result. induction entries as [|[key rule] rest IH];
    intros result H Hk; simpl in *.
  - now inversion H.
  - apply bind_Ok in H. destruct H as [r [_ H]].
    rewrite (IH _ H) by tauto. apply assoc_setProp_other. intuition.
Qed.

(** What is stored at a key of a schema with distinct property names is
    what the loop body computes for it. *)
Lemma validateEntries_stored
      (nested : value -> value -> outcome ResultObject)
      (input : value) (entries : list (string * value))
      (result res : ResultObject) (key : string) (rule : value) :
  validateEntries fenv nested input entries result = Ok res ->
  NoDup (keys entries) -> In (key, rule) entries ->
  exists r, validateField fenv (fun value => nested value rule)
                          input key rule = Ok r
            /\ assoc key res = Some r.
Proof.
  revert result. induction entries as [|[k r0] rest IH];
    intros result H Hnd Hin; simpl in *.
  - contradiction.
  - inversion Hnd as [|? ? Hout Hnd']; subst.
    apply bind_Ok in H. destruct H as [r [Hr H]].
    destruct Hin as [Heq | Hin].
    + inversion Heq; subst. exists r. split; [exact Hr|].
      rewrite (validateEntries_untouched _ _ _ _ _ _ H Hout).
      apply assoc_setProp_same.
    + eapply IH; eauto.
Qed.

(** An array has no property named [enum] or [itemType]. *)
Lemma indexKey_not_probe (i : nat) :
  String.eqb "enum" (indexKey i) = false
  /\ String.eqb "itemType" (indexKey i) = false.
Proof.
  unfold indexKey. destruct (Nat.to_uint i); split; reflexivity.
Qed.

Lemma array_has_no_probe {A} (i : nat) (l : list A) (x : A) :
  assoc "enum" (indexed i l ++ [("length", x)]) = None
  /\ assoc "itemType" (indexed i l ++ [("length", x)]) = None.
Proof.
  revert i. induction l as [|y l IH]; intros i.
  - split; reflexivity.
  - cbn [indexed app assoc].
    destruct (indexKey_not_probe i) as [-> ->]. apply IH.
Qed.

(** A key that is an own property of the input, with its value. *)
Lemma own_property (input : value) (key : string) (v : value) :
  assoc key (ownProps input) = Some v ->
  getProp input key = Ok v /\ hasOwnProperty input key = true.
Proof.
  intros H. split.
  - rewrite getProp_not_nullish.
    + now rewrite H.
    + destruct input; try reflexivity; discriminate H.
  - unfold hasOwnProperty. now rewrite H.
Qed.

(** The branch taken for an array descriptor. *)
Lemma validateField_array_descriptor
      (n : value -> outcome ResultObject) (input : value) (key : string)
      (a : nat) (props : list (string * value)) (itemType v : value) :
  assoc key (ownProps input) = Some v ->
  assoc "enum" props = None ->
  assoc "itemType" props = Some itemType ->
  validateField fenv n input key (VObj a props)
  = (isValid <- validateArray fenv v itemType ;; Ok (RBool isValid)).
Proof.
  intros Hv Henum Hitem. destruct (own_property _ _ _ Hv) as [Hget Hown].
  unfold validateField. rewrite Hget. simpl. rewrite Hown. simpl.
  unfold propIn, hasOwnProperty. simpl. rewrite Henum, Hitem. reflexivity.
Qed.

(** The branches taken for an object rule that is neither an enum
    descriptor nor an array descriptor: the nested call when the value is
    a non-null object, the unhandled case otherwise. *)
Lemma validateField_nested_schema
      (n : value -> outcome ResultObject) (input : value) (key : string)
      (a : nat) (props : list (string * value)) (v : value) :
  assoc key (ownProps input) = Some v ->
  assoc "enum" props = None ->
  assoc "itemType" props = None ->
  validateField fenv n input key (VObj a props)
  = if isNonNullObject v then r <- n v ;; Ok (RTree r)
    else Ok (RBool false).
Proof.
  intros Hv Henum Hitem. destruct (own_property _ _ _ Hv) as [Hget Hown].
  unfold validateField. rewrite Hget. simpl. rewrite Hown. simpl.
  unfold propIn, hasOwnProperty. simpl. rewrite Henum, Hitem. simpl.
  unfold isNonNullObject.
  destruct (String.eqb (typeof v) "object"); simpl; [|reflexivity].
  destruct (strictEquals v VNull); reflexivity.
Qed.

(** The branches taken for a list rule: the nested call when the value is
    a non-null object, the composite checker otherwise. *)
Lemma validateField_list_rule
      (n : value -> outcome ResultObject) (input : value) (key : string)
      (b : nat) (rules : list value) (v : value) :
  assoc key (ownProps input) = Some v ->
  validateField fenv n input key (VArr b rules)
  = if isNonNullObject v then r <- n v ;; Ok (RTree r)
    else isValid <- validateCompositeValidator fenv v (VArr b rules) ;;
         Ok (RBool isValid).
Proof.
  intros Hv. destruct (own_property _ _ _ Hv) as [Hget Hown].
  unfold validateField. rewrite Hget. simpl. rewrite Hown. simpl.
  unfold propIn, hasOwnProperty. simpl.
  destruct (array_has_no_probe 0 rules (lengthOf rules)) as [-> ->].
  simpl. unfold isNonNullObject.
  destruct (String.eqb (typeof v) "object"); simpl; [|reflexivity].
  destruct (strictEquals v VNull); reflexivity.
Qed.

(** The guard on missing keys: past the two tags that accept absence, a
    key that is not an own property is rejected at once. *)
Lemma validateField_absent
      (n : value -> outcome ResultObject) (input : value) (key : string)
      (rule : value) :
  nullish input = false ->
  hasOwnProperty input key = false ->
  rule <> VStr "undefined" ->
  rule <> VStr "null" ->
  validateField fenv n input key rule = Ok (RBool false).
Proof.
  intros Hn Hown Hu Hnull. unfold validateField.
  rewrite (getProp_absent _ _ Hn Hown). simpl.
  rewrite (strictEquals_not_tag _ _ Hu), (strictEquals_not_tag _ _ Hnull).
  now rewrite Hown.
Qed.

(** With distinct property names, the keys of the result are those of the
    entries, in order. *)
Lemma validateEntries_keys_list
      (nested : value -> value -> outcome ResultObject)
      (input : value) (entries : list (string * value))
      (result res : ResultObject) :
  validateEntries fenv nested input entries result = Ok res ->
  NoDup (keys result ++ keys entries) ->
  keys res = keys result ++ keys entries.
Proof.
  revert result. induction entries as [|[key rule] rest IH];
    intros result H Hnd; simpl in *.
  - inversion H; subst. now rewrite app_nil_r.
  - apply bind_Ok in H. destruct H as [r [_ H]].
    assert (Hfresh : ~ In key (keys result)).
    { apply NoDup_remove_2 in Hnd. intros Hin. apply Hnd.
      apply in_or_app. now left. }
    assert (Hk : keys (setProp key r result) = keys result ++ [key])
      by now apply keys_setProp_fresh.
    rewrite (IH _ H); rewrite Hk, <- app_assoc; simpl; auto.
Qed.

(** The loop throws as soon as the body throws for the key at hand. *)
Lemma validateEntries_throw
      (nested : value -> value -> outcome ResultObject)
      (input : value) (key : string) (rule : value)
      (rest : list (string * value)) (result : ResultObject) (e : exn) :
  validateField fenv (fun value => nested value rule) input key rule
  = Throw e ->
  validateEntries fenv nested input ((key, rule) :: rest) result = Throw e.
Proof. intros H. simpl. now rewrite H. Qed.

Lemma validateEntries_step
      (nested : value -> value -> outcome ResultObject)
      (input : value) (key : string) (rule : value)
      (rest : list (string * value)) (result : ResultObject)
      (r : ValidationResult) :
  validateField fenv (fun value => nested value rule) input key rule
  = Ok r ->
  validateEntries fenv nested input ((key, rule) :: rest) result
  = validateEntries fenv nested input rest (setProp key r result).
Proof. intros H. simpl. now rewrite H. Qed.

(** The loop over a concatenation visits the first entries, then the
    others with the result of the first. *)
Lemma validateEntries_app
      (nested : value -> value -> outcome ResultObject)
      (input : value) (first others : list (string * value))
      (result : ResultObject) :
  validateEntries fenv nested input (first ++ others) result
  = (r <- validateEntries fenv nested input first result ;;
     validateEntries fenv nested input others r).
Proof.
  revert result. induction first as [|[key rule] first IH];
    intros result; simpl; auto.
  destruct (validateField fenv _ input key rule); simpl; auto.
Qed.

End Dispatcher.

(** ** The end-to-end example of the test suite *)

(** C1: for the schema of the test suite and the input
    [{name: "John Doe", age: "30", email: "john.doe@example.com"}], in which
    [sx] is absent and [age] is a string, [validate] returns exactly
    [{name: true, age: false, email: true, other: true, sx: false}]. *)
Theorem validate_invalid_input_object (fenv : nat -> value -> outcome bool) :
  validate fenv testSchema invalidInput
  = Ok [("name", RBool true); ("age", RBool false); ("email", RBool true);
        ("other", RBool true); ("sx", RBool false)].
Proof. reflexivity. Qed.

(** The two other tests of the suite. *)
Example validate_valid_input_object (fenv : nat -> value -> outcome bool) :
  validate fenv testSchema validInput
  = Ok [("name", RBool true); ("age", RBool true); ("email", RBool true);
        ("other", RBool true); ("sx", RBool true)].
Proof. reflexivity. Qed.

Example validate_nested_input_object :
  validate testEnv nestedTestSchema nestedInput
  = Ok [("user", RTree [("name", RBool true); ("age", RBool true);
                        ("email", RBool true)]);
        ("product", RTree [("name", RBool true); ("price", RBool true);
                           ("id", RBool false)])].
Proof. reflexivity. Qed.

(** ** Missing keys *)

(** C2: for a rule other than the tags ["undefined"] and ["null"], a key
    that is not an own property of the input object gets [false]; this holds
    whatever the functions of the heap and the recursive call do, so no rule
    is applied to the missing value; the loop goes on with the remaining
    keys, and [false] is what the returned result holds at that key. *)
Theorem missing_key_is_invalid
        (fenv : nat -> value -> outcome bool)
        (nested : value -> value -> outcome ResultObject)
        (input : value) (key : string) (rule : value) :
  nullish input = false ->
  hasOwnProperty input key = false ->
  rule <> VStr "undefined" ->
  rule <> VStr "null" ->
  validateField fenv (fun value => nested value rule) input key rule
  = Ok (RBool false)
  /\ (forall rest result,
         validateEntries fenv nested input ((key, rule) :: rest) result
         = validateEntries fenv nested input rest
                           (setProp key (RBool false) result))
  /\ (forall schema res,
         NoDup (keys (forInEntries schema)) ->
         In (key, rule) (forInEntries schema) ->
         validate fenv schema input = Ok res ->
         assoc key res = Some (RBool false)).
Proof.
  intros Hn Hown Hu Hnull.
  assert (Hfield : forall n, validateField fenv n input key rule
                             = Ok (RBool false)).
  { intros n. now apply validateField_absent. }
  split; [apply Hfield|]. split.
  - intros rest result. apply validateEntries_step, Hfield.
  - intros schema res Hnd Hin Hres. unfold validate in Hres.
    rewrite validateHelper_forIn in Hres.
    destruct (validateEntries_stored _ _ _ _ _ _ _ _ Hres Hnd Hin)
      as [r [Hr Hstored]].
    rewrite Hfield in Hr. inversion Hr; subst. exact Hstored.
Qed.

Lemma missing_key_is_invalid_witness :
  validateField testEnv
                (fun value => validateHelper testEnv value (VFun 0))
                (VObj 3 [("name", VStr "product")]) "price" (VFun 0)
  = Ok (RBool false).
Proof.
  apply (missing_key_is_invalid testEnv (validateHelper testEnv)
           (VObj 3 [("name", VStr "product")]) "price" (VFun 0)).
  - reflexivity.
  - reflexivity.
  - discriminate.
  - discriminate.
Defined.

(** C3: for the rule ["undefined"], a key of an input object gets [true]
    exactly when it is not an own property of the input or its value is
    [undefined]; nothing else is consulted (neither the functions of the heap
    nor the recursive call), and the loop goes on.  In particular
    [validate({})] and [validate({field: undefined})] give [true]. *)
Theorem undefined_tag_accepts_absence
        (fenv : nat -> value -> outcome bool)
        (nested : value -> value -> outcome ResultObject)
        (input : value) (key : string) :
  nullish input = false ->
  (exists isValid,
      validateField fenv (fun value => nested value (VStr "undefined"))
                    input key (VStr "undefined") = Ok (RBool isValid)
      /\ (isValid = true <->
          hasOwnProperty input key = false
          \/ getProp input key = Ok VUndefined)
      /\ (forall rest result,
             validateEntries fenv nested input
                             ((key, VStr "undefined") :: rest) result
             = validateEntries fenv nested input rest
                               (setProp key (RBool isValid) result))
      /\ (forall schema res,
             NoDup (keys (forInEntries schema)) ->
             In (key, VStr "undefined") (forInEntries schema) ->
             validate fenv schema input = Ok res ->
             assoc key res = Some (RBool isValid)))
  /\ (forall a b,
         validate fenv (VObj a [(key, VStr "undefined")]) (VObj b [])
         = Ok [(key, RBool true)])
  /\ (forall a b,
         validate fenv (VObj a [(key, VStr "undefined")])
                  (VObj b [(key, VUndefined)])
         = Ok [(key, RBool true)]).
Proof.
  intros Hn. split; [|split].
  - pose proof (getProp_not_nullish input key Hn) as Hget.
    set (v := match assoc key (ownProps input) with
              | Some x => x
              | None => VUndefined
              end) in *.
    clearbody v.
    assert (Hfield : forall n,
               validateField fenv n input key (VStr "undefined")
               = Ok (RBool (negb (hasOwnProperty input key)
                            || strictEquals v VUndefined))).
    { intros n. unfold validateField. now rewrite Hget. }
    exists (negb (hasOwnProperty input key) || strictEquals v VUndefined).
    split; [apply Hfield|]. split; [|split].
    + rewrite Hget, Bool.orb_true_iff, Bool.negb_true_iff.
      assert (Hv : strictEquals v VUndefined = true <-> Ok v = Ok VUndefined).
      { split.
        - destruct v; simpl; try discriminate. reflexivity.
        - intros H. inversion H. subst v. reflexivity. }
      now rewrite Hv.
    + intros rest result. apply validateEntries_step, Hfield.
    + intros schema res Hnd Hin Hres. unfold validate in Hres.
      rewrite validateHelper_forIn in Hres.
      destruct (validateEntries_stored _ _ _ _ _ _ _ _ Hres Hnd Hin)
        as [r [Hr Hstored]].
      rewrite Hfield in Hr. inversion Hr; subst. exact Hstored.
  - intros a b. unfold validate. simpl. unfold validateField. reflexivity.
  - intros a b. unfold validate. simpl. unfold validateField. simpl.
    unfold hasOwnProperty. simpl. now rewrite String.eqb_refl.
Qed.

Lemma undefined_tag_accepts_absence_witness :
  validate testEnv (VObj 1 [("other", VStr "undefined")]) (VObj 2 [])
  = Ok [("other", RBool true)].
Proof.
  destruct (undefined_tag_accepts_absence testEnv (validateHelper testEnv)
              invalidInput "other") as [_ [H _]].
  - reflexivity.
  - apply H.
Defined.

(** ** The composite checker *)

(** C4: the composite checker takes the list itself when the rule is a list
    and the singleton list otherwise, and answers [true] exactly when every
    rule of the list accepts the value; it answers [false] exactly when some
    rule rejects the value after all the rules before it accepted it.  For
    the rule [["number", isPositive]], where [isPositive] accepts 5 and
    rejects -5, the value 5 gives [true], the value -5 gives [false], and
    the string ["5"] gives [false] whatever [isPositive] does on it. *)
Theorem composite_checker_requires_all
        (fenv : nat -> value -> outcome bool) :
  (forall a rules, validatorArray (VArr a rules) = rules)
  /\ (forall rule, isArray rule = false -> validatorArray rule = [rule])
  /\ (forall v validators,
         validateCompositeValidator fenv v validators = Ok true
         <-> Forall (fun rule => compositeCheck fenv v rule = Ok true)
                    (validatorArray validators))
  /\ (forall v validators,
         validateCompositeValidator fenv v validators = Ok false
         <-> exists pre rule post,
             validatorArray validators = pre ++ rule :: post
             /\ Forall (fun r => compositeCheck fenv v r = Ok true) pre
             /\ compositeCheck fenv v rule = Ok false)
  /\ (forall a isPositive,
         fenv isPositive (VNum 5%float) = Ok true ->
         fenv isPositive (VNum (-5)%float) = Ok false ->
         validateCompositeValidator
           fenv (VNum 5%float) (VArr a [VStr "number"; VFun isPositive])
         = Ok true
         /\ validateCompositeValidator
              fenv (VNum (-5)%float)
              (VArr a [VStr "number"; VFun isPositive])
            = Ok false)
  /\ (forall a isPositive,
         validateCompositeValidator
           fenv (VStr "5") (VArr a [VStr "number"; VFun isPositive])
         = Ok false).
Proof.
  split; [reflexivity|]. split; [|split; [|split; [|split]]].
  - intros rule H. destruct rule; try reflexivity; discriminate H.
  - intros v validators. apply every_true_iff.
  - intros v validators. apply every_false_iff.
  - intros a isPositive H5 Hm5. unfold validateCompositeValidator. simpl.
    now rewrite H5, Hm5.
  - reflexivity.
Qed.

Lemma composite_checker_requires_all_witness :
  validateCompositeValidator testEnv (VNum 5%float)
                             (VArr 7 [VStr "number"; VFun 0]) = Ok true
  /\ validateCompositeValidator testEnv (VNum (-5)%float)
                                (VArr 7 [VStr "number"; VFun 0]) = Ok false.
Proof.
  destruct (composite_checker_requires_all testEnv) as [_ [_ [_ [_ [H _]]]]].
  apply (H 7 0).
  - reflexivity.
  - reflexivity.
Defined.

(** ** The enum checker *)

(** C7, as the code has it: the enum checker answers [true] exactly when the
    value is one of the values of the enum object under the comparison of
    [includes] (SameValueZero): strict equality, except that [NaN] is found
    in an enum that holds [NaN].  Nothing is coerced (equal values have the
    same type) and the order of the enum values is irrelevant.  For the enum
    [{A: "a", B: "b"}], ["a"] gives [true], ["c"] and [0] give [false]. *)
Theorem enum_checker_membership (v enumType : value) (vs : list value) :
  objectValues enumType = Ok vs ->
  validateEnum v enumType = Ok (includes vs v)
  /\ (validateEnum v enumType = Ok true
      <-> exists x, In x vs /\ sameValueZero x v = true)
  /\ (forall x, sameValueZero x v = true -> typeof x = typeof v)
  /\ (forall x, sameValueZero x v = strictEquals x v
                \/ exists m n, x = VNum m /\ v = VNum n
                               /\ isNaN m = true /\ isNaN n = true)
  /\ (forall vs', (forall x, In x vs <-> In x vs') ->
                  includes vs' v = includes vs v)
  /\ validateEnum (VStr "a") abEnum = Ok true
  /\ validateEnum (VStr "c") abEnum = Ok false
  /\ validateEnum (VNum 0%float) abEnum = Ok false.
Proof.
  intros Hvs.
  assert (Hrun : validateEnum v enumType = Ok (includes vs v)).
  { unfold validateEnum. now rewrite Hvs. }
  split; [exact Hrun|]. split; [|split; [|split; [|split]]].
  - rewrite Hrun. unfold includes. split.
    + intros H. apply existsb_exists. congruence.
    + intros H. f_equal. now apply existsb_exists.
  - intros x. destruct x; destruct v; simpl;
      try discriminate; reflexivity.
  - intros x. destruct x as [| | |m| | | | | |];
      destruct v as [| | |n| | | | | |]; simpl; auto.
    destruct (isNaN m && isNaN n) eqn:E.
    + apply andb_true_iff in E. right. exists m, n. tauto.
    + left. now rewrite orb_false_r.
  - intros vs' Hsame. unfold includes.
    destruct (existsb (fun x => sameValueZero x v) vs) eqn:E.
    + apply existsb_exists in E. destruct E as [x [Hin Hx]].
      apply existsb_exists. exists x. split; [now apply Hsame | exact Hx].
    + destruct (existsb (fun x => sameValueZero x v) vs') eqn:E'; auto.
      apply existsb_exists in E'. destruct E' as [x [Hin Hx]].
      rewrite <- E. symmetry. apply existsb_exists.
      exists x. split; [now apply Hsame | exact Hx].
  - repeat split.
Qed.

Lemma enum_checker_membership_witness :
  validateEnum (VStr "b") abEnum = Ok (includes [VStr "a"; VStr "b"] (VStr "b")).
Proof.
  apply (enum_checker_membership (VStr "b") abEnum [VStr "a"; VStr "b"]).
  reflexivity.
Defined.

(** The enum [{A: NaN}] accepts the value [NaN], which is strictly equal to
    no value at all: membership under strict equality is not what the enum
    checker computes. *)
Lemma enum_checker_accepts_NaN :
  objectValues (VObj 20 [("A", VNum nan)]) = Ok [VNum nan]
  /\ validateEnum (VNum nan) (VObj 20 [("A", VNum nan)]) = Ok true
  /\ ~ (exists x, In x [VNum nan] /\ strictEquals x (VNum nan) = true).
Proof.
  repeat split.
  intros [x [[Hx | []] Heq]]. subst x. discriminate.
Qed.

(** ** The array checker *)

(** On an array, [validateArray] is [every] with the check of one element. *)
Lemma validateArray_every (fenv : nat -> value -> outcome bool)
      (a : nat) (items : list value) (itemType : value) :
  isItemRule itemType = true ->
  validateArray fenv (VArr a items) itemType
  = every (itemCheck fenv itemType) items.
Proof.
  intros Hrule.
  destruct itemType as [| | | |t | | |b props|b elems|b];
    try discriminate; try reflexivity;
    unfold validateArray, propIn; simpl;
    match goal with
    | |- context [hasOwnProperty ?o ?k] =>
        destruct (hasOwnProperty o k) eqn:E
    end;
    apply every_ext; intros x _; unfold itemCheck, propIn; simpl;
    now rewrite E.
Qed.

(** C8: the array checker answers [false] on every value that is not an
    array; on an array, for an item rule (a type tag, a predicate, an enum
    descriptor or any other object), it answers [true] exactly when every
    element passes the item rule, each element being checked on its own, and
    the empty array passes.  For a type tag the answer is the conjunction
    over the elements.  With [{itemType: "string"}]: [[]] gives [true],
    [["a", 2]] gives [false], ["not an array"] gives [false]. *)
Theorem array_checker_every_element
        (fenv : nat -> value -> outcome bool) :
  (forall v itemType, isArray v = false ->
                      validateArray fenv v itemType = Ok false)
  /\ (forall itemType a items,
         isItemRule itemType = true ->
         (validateArray fenv (VArr a items) itemType = Ok true
          <-> Forall (fun item => itemCheck fenv itemType item = Ok true)
                     items))
  /\ (forall itemType a,
         isItemRule itemType = true ->
         validateArray fenv (VArr a []) itemType = Ok true)
  /\ (forall a items t,
         validateArray fenv (VArr a items) (VStr t)
         = Ok (forallb (applyDefaultValidator t) items))
  /\ (forall a, validateArray fenv (VArr a []) (VStr "string") = Ok true)
  /\ (forall a,
         validateArray fenv (VArr a [VStr "a"; VNum 2%float])
                       (VStr "string") = Ok false)
  /\ validateArray fenv (VStr "not an array") (VStr "string") = Ok false.
Proof.
  split; [|split; [|split; [|split]]].
  - intros v itemType Hv.
    destruct v; try reflexivity; discriminate.
  - intros itemType a items Hrule.
    rewrite validateArray_every by exact Hrule.
    apply every_true_iff.
  - intros itemType a Hrule. now rewrite validateArray_every by exact Hrule.
  - intros a items t. simpl. now apply every_total.
  - repeat split.
Qed.

Lemma array_checker_every_element_witness :
  validateArray testEnv (VArr 5 [VNum 3%float; VNum 12%float]) (VFun 0)
  = Ok true
  <-> Forall (fun item => itemCheck testEnv (VFun 0) item = Ok true)
             [VNum 3%float; VNum 12%float].
Proof.
  destruct (array_checker_every_element testEnv) as [_ [H _]].
  apply (H (VFun 0) 5 [VNum 3%float; VNum 12%float]).
  reflexivity.
Defined.

(** C10: when the item rule of an array descriptor is a non-null object
    without an [enum] property (another array descriptor, say) and the
    value of the key is a non-empty array, the array checker calls the item
    rule as a function on the first element: this throws a [TypeError],
    which leaves the loop, once the loop reaches the key, and [validate]
    instead of storing [false]. *)
Theorem object_item_rule_throws
        (fenv : nat -> value -> outcome bool)
        (nested : value -> value -> outcome ResultObject)
        (input : value) (key : string) (a : nat)
        (props : list (string * value)) (itemType : value)
        (b : nat) (first : value) (others : list value) :
  assoc "enum" props = None ->
  assoc "itemType" props = Some itemType ->
  isNonNullObject itemType = true ->
  hasOwnProperty itemType "enum" = false ->
  assoc key (ownProps input) = Some (VArr b (first :: others)) ->
  validateArray fenv (VArr b (first :: others)) itemType = Throw TypeError
  /\ validateField fenv (fun value => nested value (VObj a props))
                   input key (VObj a props) = Throw TypeError
  /\ (forall rest result,
         validateEntries fenv nested input ((key, VObj a props) :: rest)
                         result = Throw TypeError)
  /\ (forall before rest result reached,
         validateEntries fenv nested input before result = Ok reached ->
         validateEntries fenv nested input
                         (before ++ (key, VObj a props) :: rest) result
         = Throw TypeError)
  /\ (forall c, validate fenv (VObj c [(key, VObj a props)]) input
                = Throw TypeError).
Proof.
  intros Henum Hitem Hobj Hnoenum Hval.
  assert (Harr : validateArray fenv (VArr b (first :: others)) itemType
                 = Throw TypeError).
  { destruct itemType as [| | | |t | | |c ps|c elems|c];
      try discriminate Hobj;
      unfold validateArray, propIn; simpl; now rewrite Hnoenum. }
  assert (Hfield : forall n, validateField fenv n input key (VObj a props)
                             = Throw TypeError).
  { intros n.
    rewrite (validateField_array_descriptor fenv n _ _ a _ _ _ Hval Henum Hitem).
    now rewrite Harr. }
  split; [exact Harr|]. split; [apply Hfield|]. split; [|split].
  - intros rest result. apply validateEntries_throw, Hfield.
  - intros before rest result reached Hbefore.
    rewrite validateEntries_app, Hbefore. simpl.
    apply validateEntries_throw, Hfield.
  - intros c. unfold validate. rewrite validateHelper_forIn.
    apply validateEntries_throw, Hfield.
Qed.

Lemma object_item_rule_throws_witness :
  validate testEnv nestedArraySchema
           (VObj 43 [("tags", VArr 44 [VArr 45 [VStr "x"]])])
  = Throw TypeError.
Proof.
  destruct (object_item_rule_throws testEnv (validateHelper testEnv)
              (VObj 43 [("tags", VArr 44 [VArr 45 [VStr "x"]])]) "tags" 41
              [("itemType", VObj 42 [("itemType", VStr "string")])]
              (VObj 42 [("itemType", VStr "string")])
              44 (VArr 45 [VStr "x"]) [])
    as [_ [_ [_ [_ H]]]].
  - reflexivity.
  - reflexivity.
  - reflexivity.
  - reflexivity.
  - reflexivity.
  - apply H.
Defined.

(** ** List rules *)

(** C5, as the code behaves: when the value of the key is a non-null object
    (a plain object or an array), a list rule is taken by the branch of
    nested schemas, which comes first in the dispatch: the list is walked as
    a schema whose keys are its indices and the composite checker is not
    consulted.  For the rule [["object"]] and the value [{}] the result
    holds the tree [{0: false}], while the composite checker accepts the
    value. *)
Theorem list_rule_on_object_value_recurses
        (fenv : nat -> value -> outcome bool) :
  (forall nested key a b c rules props,
      validateField fenv nested (VObj a [(key, VObj c props)]) key
                    (VArr b rules)
      = (r <- nested (VObj c props) ;; Ok (RTree r)))
  /\ (forall nested key a b c rules items,
         validateField fenv nested (VObj a [(key, VArr c items)]) key
                       (VArr b rules)
         = (r <- nested (VArr c items) ;; Ok (RTree r)))
  /\ validate fenv listRuleSchema (VObj 32 [("f", VObj 33 [])])
     = Ok [("f", RTree [("0", RBool false)])]
  /\ validateCompositeValidator fenv (VObj 33 []) (VArr 31 [VStr "object"])
     = Ok true.
Proof.
  assert (Hown : forall key a v, assoc key (ownProps (VObj a [(key, v)]))
                                 = Some v).
  { intros key a v. simpl. now rewrite String.eqb_refl. }
  split; [|split; [|split]].
  - intros nested key a b c rules props.
    now rewrite (validateField_list_rule fenv nested _ _ b rules _
                   (Hown key a (VObj c props))).
  - intros nested key a b c rules items.
    now rewrite (validateField_list_rule fenv nested _ _ b rules _
                   (Hown key a (VArr c items))).
  - reflexivity.
  - reflexivity.
Qed.

(** ** Nested schemas *)

(** The schema [{user: {name: "string"}}] applied to [{}] returns
    [{user: false}]: nothing faults. *)
Lemma absent_nested_field_returns :
  validate testEnv userSchema (VObj 12 []) = Ok [("user", RBool false)]
  /\ ~ throws (validate testEnv userSchema (VObj 12 [])).
Proof.
  split; [reflexivity|]. intros [e H]. discriminate H.
Qed.

(** C6, as the code has it: when the key of a nested schema is not an own
    property of the input object, the dispatcher stores [false] for the key
    and goes on; the nested schema is not applied (the result does not
    depend on what the recursive call would do) and nothing faults.  The
    same holds when the key is present with a value that is not a non-null
    object.  [validate({})] against [{user: {name: "string"}}] returns
    [{user: false}]. *)
Theorem absent_nested_field_is_invalid
        (fenv : nat -> value -> outcome bool)
        (nested : value -> value -> outcome ResultObject)
        (input : value) (key : string) (a : nat)
        (props : list (string * value)) :
  (nullish input = false ->
   hasOwnProperty input key = false ->
   validateField fenv (fun value => nested value (VObj a props))
                 input key (VObj a props) = Ok (RBool false)
   /\ forall rest result,
       validateEntries fenv nested input ((key, VObj a props) :: rest) result
       = validateEntries fenv nested input rest
                         (setProp key (RBool false) result))
  /\ (forall v,
         assoc key (ownProps input) = Some v ->
         isNonNullObject v = false ->
         assoc "enum" props = None ->
         assoc "itemType" props = None ->
         validateField fenv (fun value => nested value (VObj a props))
                       input key (VObj a props) = Ok (RBool false))
  /\ (forall b, validate fenv userSchema (VObj b [])
                = Ok [("user", RBool false)]).
Proof.
  split; [|split].
  - intros Hn Hown.
    assert (Hfield : forall n, validateField fenv n input key (VObj a props)
                               = Ok (RBool false)).
    { intros n. apply validateField_absent; auto; discriminate. }
    split; [apply Hfield|].
    intros rest result. apply validateEntries_step, Hfield.
  - intros v Hv Hobj Henum Hitem.
    rewrite (validateField_nested_schema fenv _ _ _ a _ _ Hv Henum Hitem).
    now rewrite Hobj.
  - reflexivity.
Qed.

Lemma absent_nested_field_is_invalid_witness :
  validateField testEnv
                (fun value =>
                   validateHelper testEnv value
                                  (VObj 11 [("name", VStr "string")]))
                (VObj 12 []) "user" (VObj 11 [("name", VStr "string")])
  = Ok (RBool false).
Proof.
  destruct (absent_nested_field_is_invalid
              testEnv (validateHelper testEnv) (VObj 12 []) "user" 11
              [("name", VStr "string")]) as [H _].
  destruct H as [H _].
  - reflexivity.
  - reflexivity.
  - exact H.
Defined.

(** ** The shape of the result *)

(** The schema [{user: {name: "string"}}] applied to [{user: "Bob"}] stores
    the boolean [false] at the key of the nested schema, not a tree. *)
Lemma nested_key_may_hold_false :
  validate testEnv userSchema (VObj 12 [("user", VStr "Bob")])
  = Ok [("user", RBool false)]
  /\ forall sub, assoc "user" [("user", RBool false)] <> Some (RTree sub).
Proof.
  split; [reflexivity|]. intros sub H. discriminate H.
Qed.

(** C9, as the code has it: the result that [validate] returns has exactly
    the keys of the schema (the keys of the input that the schema lacks
    add nothing), in the order of the schema when its property names are
    distinct.  For a key whose rule is a nested schema, the stored value is
    the result of the nested call, with exactly the keys of the nested
    schema, when the key is an own property of the input whose value is a
    non-null object; it is [false] when the key is missing or its value is
    not a non-null object. *)
Theorem result_has_schema_keys
        (fenv : nat -> value -> outcome bool)
        (schema input : value) (res : ResultObject) :
  validate fenv schema input = Ok res ->
  (forall k, In k (keys res) <-> In k (keys (forInEntries schema)))
  /\ (NoDup (keys (forInEntries schema)) ->
      keys res = keys (forInEntries schema))
  /\ (forall key a props,
         NoDup (keys (forInEntries schema)) ->
         In (key, VObj a props) (forInEntries schema) ->
         assoc "enum" props = None ->
         assoc "itemType" props = None ->
         (forall v,
             assoc key (ownProps input) = Some v ->
             isNonNullObject v = true ->
             exists sub,
               assoc key res = Some (RTree sub)
               /\ validate fenv (VObj a props) v = Ok sub
               /\ forall k, In k (keys sub) <-> In k (keys props))
         /\ (forall v,
                assoc key (ownProps input) = Some v ->
                isNonNullObject v = false ->
                assoc key res = Some (RBool false))
         /\ (hasOwnProperty input key = false ->
             assoc key res = Some (RBool false))).
Proof.
  intros Hres. unfold validate in Hres.
  rewrite validateHelper_forIn in Hres.
  split; [|split].
  - intros k. rewrite (validateEntries_keys _ _ _ _ _ _ Hres k). simpl. tauto.
  - intros Hnd. now apply (validateEntries_keys_list _ _ _ _ _ _ Hres).
  - intros key a props Hnd Hin Henum Hitem.
    destruct (validateEntries_stored _ _ _ _ _ _ _ _ Hres Hnd Hin)
      as [r [Hr Hstored]].
    split; [|split].
    + intros v Hv Hobj.
      rewrite (validateField_nested_schema fenv _ _ _ a _ _ Hv Henum Hitem),
        Hobj in Hr.
      apply bind_Ok in Hr. destruct Hr as [sub [Hsub Hr]].
      inversion Hr; subst r. exists sub. split; [exact Hstored|].
      split; [exact Hsub|].
      intros k. rewrite validateHelper_forIn in Hsub.
      rewrite (validateEntries_keys _ _ _ _ _ _ Hsub k). simpl. tauto.
    + intros v Hv Hobj.
      rewrite (validateField_nested_schema fenv _ _ _ a _ _ Hv Henum Hitem),
        Hobj in Hr.
      inversion Hr; subst r. exact Hstored.
    + intros Hown.
      assert (Hn : nullish input = false).
      { destruct input; try reflexivity;
          unfold validateField in Hr; discriminate Hr. }
      rewrite validateField_absent in Hr; auto; try discriminate.
      inversion Hr; subst r. exact Hstored.
Qed.

Lemma result_has_schema_keys_witness :
  keys [("user", RTree [("name", RBool true)])] = keys (forInEntries userSchema).
Proof.
  destruct (result_has_schema_keys
              testEnv userSchema
              (VObj 12 [("user", VObj 13 [("name", VStr "Bob")])])
              [("user", RTree [("name", RBool true)])]) as [_ [H _]].
  - reflexivity.
  - apply H. repeat constructor; simpl; tauto.
Defined.

(** ** Well-formed schemas never fault *)

(** Induction on values, with the induction hypothesis for the values held
    by an object and by an array. *)
Lemma value_induction (P : value -> Prop) :
  P VUndefined -> P VNull -> (forall b, P (VBool b)) ->
  (forall n, P (VNum n)) -> (forall s, P (VStr s)) ->
  (forall id, P (VSymbol id)) -> (forall z, P (VBigInt z)) ->
  (forall a props, Forall (fun entry => P (snd entry)) props ->
                   P (VObj a props)) ->
  (forall a items, Forall P items -> P (VArr a items)) ->
  (forall a, P (VFun a)) ->
  forall v, P v.
Proof.
  intros Hu Hnull Hb Hn Hs Hsym Hbig Hobj Harr Hfun.
  exact (fix go (v : value) : P v :=
           match v with
           | VUndefined => Hu
           | VNull => Hnull
           | VBool b => Hb b
           | VNum n => Hn n
           | VStr s => Hs s
           | VSymbol id => Hsym id
           | VBigInt z => Hbig z
           | VObj a props =>
               Hobj a props
                    ((fix entries (l : list (string * value))
                      : Forall (fun entry => P (snd entry)) l :=
                        match l with
                        | [] => Forall_nil _
                        | (k, r) :: l' =>
                            Forall_cons (k, r) (go r) (entries l')
                        end) props)
           | VArr a items =>
               Harr a items
                    ((fix elements (l : list value) : Forall P l :=
                        match l with
                        | [] => Forall_nil _
                        | r :: l' => Forall_cons r (go r) (elements l')
                        end) items)
           | VFun a => Hfun a
           end).
Qed.

Section Totality.

Variable fenv : nat -> value -> outcome bool.

(** The functions of the heap return on every argument. *)
Hypothesis fenv_returns : forall a v, exists b, fenv a v = Ok b.

Lemma every_returns (f : value -> outcome bool) (l : list value) :
  (forall x, In x l -> exists b, f x = Ok b) -> exists b, every f l = Ok b.
Proof.
  induction l as [|x l IH]; simpl; intros H; eauto.
  destruct (H x (or_introl eq_refl)) as [b Hb]. rewrite Hb. simpl.
  destruct b; eauto.
Qed.

Lemma validateEnum_returns (v e : value) :
  nullish e = false -> exists b, validateEnum v e = Ok b.
Proof.
  intros He. unfold validateEnum.
  destruct e; try discriminate He; simpl; eauto.
Qed.

Lemma validateArray_returns (v t : value) :
  supportedItemRule t = true -> exists b, validateArray fenv v t = Ok b.
Proof.
  intros Ht. destruct v as [| | | | | | | |a items|]; simpl; eauto.
  destruct t as [| | | |tag | | |b props| |b]; try discriminate Ht.
  - apply every_returns. eauto.
  - simpl in Ht. unfold propIn, hasOwnProperty. simpl.
    destruct (assoc "enum" props) as [e|] eqn:E; [|discriminate Ht]. simpl.
    apply every_returns. intros x _. simpl. rewrite ?E. simpl.
    apply validateEnum_returns. now apply negb_true_iff.
  - unfold propIn. simpl. apply every_returns. intros x _. simpl.
    apply fenv_returns.
Qed.

Lemma compositeCheck_returns (v r : value) :
  wellFormedRule r = true -> exists b, compositeCheck fenv v r = Ok b.
Proof.
  intros Hr.
  destruct r as [| | | |tag | | |b props|b rules|b]; simpl;
    rewrite ?andb_false_r; simpl; eauto.
  - simpl in Hr. unfold propIn, hasOwnProperty. simpl.
    destruct (assoc "enum" props) as [e|] eqn:E; simpl.
    + apply validateEnum_returns. now apply negb_true_iff.
    + destruct (assoc "itemType" props) as [t|] eqn:E'; simpl; eauto.
      now apply validateArray_returns.
  - unfold propIn, hasOwnProperty. simpl.
    destruct (array_has_no_probe 0 rules (lengthOf rules)) as [-> ->].
    simpl. eauto.
Qed.

Lemma validateEntries_returns
      (nested : value -> value -> outcome ResultObject) (input : value)
      (entries : list (string * value)) :
  Forall (fun entry =>
            exists r, validateField fenv (fun v => nested v (snd entry))
                                    input (fst entry) (snd entry) = Ok r)
         entries ->
  forall result, exists res,
      validateEntries fenv nested input entries result = Ok res.
Proof.
  induction 1 as [|[key rule] rest [r Hr] _ IH]; intros result; simpl; eauto.
  simpl in Hr. rewrite Hr. simpl. apply IH.
Qed.

(** The branch taken for an enum descriptor. *)
Lemma validateField_enum_descriptor
      (n : value -> outcome ResultObject) (input : value) (key : string)
      (a : nat) (props : list (string * value)) (e v : value) :
  assoc key (ownProps input) = Some v ->
  assoc "enum" props = Some e ->
  validateField fenv n input key (VObj a props)
  = (isValid <- validateEnum v e ;; Ok (RBool isValid)).
Proof.
  intros Hv Henum. destruct (own_property _ _ _ Hv) as [Hget Hown].
  unfold validateField. rewrite Hget. simpl. rewrite Hown. simpl.
  unfold propIn, hasOwnProperty. simpl. now rewrite Henum.
Qed.

Lemma isNonNullObject_not_nullish (v : value) :
  isNonNullObject v = true -> nullish v = false.
Proof. destruct v; simpl; auto; discriminate. Qed.

(** The body of the loop returns for a well-formed rule, with
    [validateHelper] for the recursive call. *)
Lemma validateField_returns (rule : value) :
  wellFormedRule rule = true ->
  forall input key,
    nullish input = false ->
    exists r, validateField fenv (fun v => validateHelper fenv v rule)
                            input key rule = Ok r.
Proof.
  induction rule as [| | | |tag | | |a props IH|a rules IH|a]
    using value_induction; intros Hwf input key Hn.
  all: destruct (assoc key (ownProps input)) as [v|] eqn:Hv.
  all: try (destruct (own_property _ _ _ Hv) as [Hget Hown]).
  all: try (assert (Hown : hasOwnProperty input key = false)
             by (unfold hasOwnProperty; now rewrite Hv);
            pose proof (getProp_absent _ _ Hn Hown) as Hget).
  all: try (rewrite validateField_absent by (auto; discriminate); eauto; fail).
  all: try solve
           [ unfold validateField; rewrite Hget; simpl; rewrite ?Hown; simpl;
             repeat match goal with
                    | |- context [if ?c then _ else _] => destruct c; simpl
                    end;
             eauto ].
  - (* an object rule, key present *)
    simpl in Hwf. destruct (assoc "enum" props) as [e|] eqn:Henum.
    + rewrite (validateField_enum_descriptor _ _ _ a _ _ _ Hv Henum).
      destruct (validateEnum_returns v e) as [b Hb].
      * now apply negb_true_iff.
      * rewrite Hb. simpl. eauto.
    + destruct (assoc "itemType" props) as [t|] eqn:Hitem.
      * rewrite (validateField_array_descriptor
                   fenv _ _ _ a _ _ _ Hv Henum Hitem).
        destruct (validateArray_returns v t Hwf) as [b Hb].
        rewrite Hb. simpl. eauto.
      * rewrite (validateField_nested_schema
                   fenv _ _ _ a _ _ Hv Henum Hitem).
        destruct (isNonNullObject v) eqn:Hobj; eauto.
        rewrite validateHelper_forIn. simpl.
        destruct (validateEntries_returns (validateHelper fenv) v props)
          with (result := @nil (string * ValidationResult)) as [res Hres].
        -- rewrite forallb_forall in Hwf. rewrite Forall_forall in IH.
           apply Forall_forall. intros entry Hin.
           apply (IH entry Hin (Hwf entry Hin)).
           now apply isNonNullObject_not_nullish.
        -- rewrite Hres. simpl. eauto.
  - (* a list rule, key present *)
    simpl in Hwf. rewrite (validateField_list_rule fenv _ _ _ a rules _ Hv).
    destruct (isNonNullObject v) eqn:Hobj.
    + rewrite validateHelper_forIn. simpl.
      assert (Hall : forall i,
                 Forall (fun entry =>
                           exists r,
                             validateField
                               fenv (fun w => validateHelper fenv w (snd entry))
                               v (fst entry) (snd entry) = Ok r)
                        (indexed i rules)).
      { clear Hv. induction rules as [|r rules IHr]; intros i; simpl;
          constructor.
        - simpl in Hwf. apply andb_true_iff in Hwf.
          inversion IH as [|? ? Hhead Htail]; subst. simpl.
          apply Hhead; [tauto|].
          now apply isNonNullObject_not_nullish.
        - simpl in Hwf. apply andb_true_iff in Hwf.
          inversion IH as [|? ? Hhead Htail]; subst. apply IHr; tauto. }
      destruct (validateEntries_returns (validateHelper fenv) v _ (Hall 0))
        with (result := @nil (string * ValidationResult)) as [res Hres].
      rewrite Hres. simpl. eauto.
    + unfold validateCompositeValidator. simpl.
      destruct (every_returns (compositeCheck fenv v) rules) as [b Hb].
      * intros r Hin. apply compositeCheck_returns.
        rewrite forallb_forall in Hwf. now apply Hwf.
      * rewrite Hb. simpl. eauto.
  - (* a predicate, key present *)
    unfold validateField. rewrite Hget. simpl. rewrite Hown. simpl.
    destruct (fenv_returns a v) as [b Hb]. rewrite Hb. simpl. eauto.
Qed.

(** X16: [validate] returns a result on every input that is neither
    [undefined] nor [null], for a schema of well-formed rules and predicates
    that do not throw. *)
Theorem validate_returns (schema input : value) :
  wellFormedSchema schema = true ->
  nullish input = false ->
  exists res, validate fenv schema input = Ok res.
Proof.
  intros Hwf Hn. unfold validate. rewrite validateHelper_forIn.
  apply validateEntries_returns.
  unfold wellFormedSchema in Hwf. rewrite forallb_forall in Hwf.
  apply Forall_forall. intros entry Hin.
  apply validateField_returns; auto.
Qed.

End Totality.

(** ** Type tags *)

Lemma applyDefaultValidator_tag (t : string) (v : value) :
  applyDefaultValidator t v = true <-> primitiveTag v = Some t.
Proof.
  unfold applyDefaultValidator.
  repeat match goal with
         | |- context [if String.eqb t ?c then _ else _] =>
             let E := fresh "E" in
             destruct (String.eqb t c) eqn:E;
             [ apply String.eqb_eq in E; subst t;
               destruct v; simpl; split; intros H;
               try discriminate H; reflexivity
             | ]
         end.
  split; [discriminate|].
  destruct v; simpl; intros H; inversion H; subst t; simpl in *;
    discriminate.
Qed.

(** The dispatcher on a type tag, for an input that is neither [undefined]
    nor [null]. *)
Lemma validateField_tag (fenv : nat -> value -> outcome bool)
      (n : value -> outcome ResultObject) (input : value) (key t : string) :
  nullish input = false ->
  validateField fenv n input key (VStr t)
  = Ok (RBool match assoc key (ownProps input) with
              | Some v => applyDefaultValidator t v
              | None => String.eqb t "undefined"
              end).
Proof.
  intros Hn. unfold validateField.
  rewrite (getProp_not_nullish input key Hn). unfold hasOwnProperty.
  destruct (assoc key (ownProps input)) as [v|]; simpl.
  - destruct (String.eqb t "undefined") eqn:Eu.
    + apply String.eqb_eq in Eu. subst t. destruct v; reflexivity.
    + destruct (String.eqb t "null") eqn:En; [|reflexivity].
      apply String.eqb_eq in En. subst t. reflexivity.
  - destruct (String.eqb t "undefined") eqn:Eu; [reflexivity|].
    destruct (String.eqb t "null"); reflexivity.
Qed.

(** X1: for a rule that is a type tag [t] and an input object, the entry of
    a key is what the primitive-type checker answers on the value of the
    key when the key is an own property of the input, whichever the tag
    (the two branches for ["undefined"] and ["null"] agree with the checker
    there); when the key is missing the entry is [true] for the tag
    ["undefined"] and [false] for every other tag, ["null"] included. *)
Theorem tag_rule_entry
        (fenv : nat -> value -> outcome bool)
        (n : value -> outcome ResultObject) (input : value) (key t : string) :
  nullish input = false ->
  (forall v, assoc key (ownProps input) = Some v ->
             validateField fenv n input key (VStr t)
             = Ok (RBool (applyDefaultValidator t v)))
  /\ (hasOwnProperty input key = false ->
      validateField fenv n input key (VStr t)
      = Ok (RBool (String.eqb t "undefined"))).
Proof.
  intros Hn. rewrite (validateField_tag fenv n input key t Hn).
  unfold hasOwnProperty. split.
  - intros v Hv. now rewrite Hv.
  - destruct (assoc key (ownProps input)); [discriminate | reflexivity].
Qed.

Lemma tag_rule_entry_witness :
  validateField testEnv (fun _ => Ok []) (VObj 3 [("age", VNull)]) "age"
                (VStr "null")
  = Ok (RBool (applyDefaultValidator "null" VNull)).
Proof.
  destruct (tag_rule_entry testEnv (fun _ => Ok [])
              (VObj 3 [("age", VNull)]) "age" "null") as [H _].
  - reflexivity.
  - apply H. reflexivity.
Defined.

(** X2: the primitive-type checker accepts a value for a tag exactly when
    the tag is the one of the value: ["null"] for [null] (which is not an
    ["object"]), ["object"] for plain objects and for arrays, the [typeof]
    of the value otherwise.  So no value passes two tags, a function passes
    no tag, and a tag that is not one of the eight passes nothing. *)
Theorem primitive_tag_is_unique :
  (forall t v, applyDefaultValidator t v = true <-> primitiveTag v = Some t)
  /\ (forall t1 t2 v,
         applyDefaultValidator t1 v = true ->
         applyDefaultValidator t2 v = true -> t1 = t2)
  /\ (forall t a, applyDefaultValidator t (VFun a) = false)
  /\ (forall t v,
         ~ In t ["string"; "number"; "boolean"; "object"; "symbol"; "bigint";
                 "undefined"; "null"] ->
         applyDefaultValidator t v = false).
Proof.
  split; [exact applyDefaultValidator_tag|]. split; [|split].
  - intros t1 t2 v H1 H2.
    apply applyDefaultValidator_tag in H1. apply applyDefaultValidator_tag in H2.
    congruence.
  - intros t a. destruct (applyDefaultValidator t (VFun a)) eqn:E; auto.
    apply applyDefaultValidator_tag in E. discriminate E.
  - intros t v Hout. destruct (applyDefaultValidator t v) eqn:E; auto.
    apply applyDefaultValidator_tag in E. exfalso. apply Hout.
    destruct v; simpl in E; inversion E; subst; simpl; tauto.
Qed.

Lemma primitive_tag_is_unique_witness :
  applyDefaultValidator "Object" (VObj 1 []) = false.
Proof.
  destruct primitive_tag_is_unique as [_ [_ [_ H]]].
  apply H. simpl. intros [H1 | [H1 | [H1 | [H1 | [H1 | [H1 | [H1 | [H1 | []]]]]]]]];
    discriminate H1.
Defined.

(** ** Inputs *)

Lemma getProp_cases (input : value) (key : string) :
  getProp input key
  = if nullish input then Throw TypeError
    else Ok match assoc key (ownProps input) with
            | Some x => x
            | None => VUndefined
            end.
Proof.
  destruct (nullish input) eqn:Hn.
  - destruct input; try discriminate Hn; reflexivity.
  - now apply getProp_not_nullish.
Qed.

(** X3: on an input that is [undefined] or [null], [validate] throws a
    [TypeError] as soon as the schema has a key to visit, whatever its
    rules; a schema without keys gives the empty result on every input. *)
Theorem validate_nullish_input
        (fenv : nat -> value -> outcome bool) (schema input : value) :
  (forInEntries schema = [] -> validate fenv schema input = Ok [])
  /\ (nullish input = true -> forInEntries schema <> [] ->
      validate fenv schema input = Throw TypeError).
Proof.
  unfold validate. rewrite validateHelper_forIn. split.
  - intros H. now rewrite H.
  - intros Hn Hne. destruct (forInEntries schema) as [|[key rule] rest].
    + contradiction.
    + simpl. unfold validateField. rewrite getProp_cases, Hn. reflexivity.
Qed.

Lemma validate_nullish_input_witness :
  validate testEnv testSchema VNull = Throw TypeError.
Proof.
  destruct (validate_nullish_input testEnv testSchema VNull) as [_ H].
  apply H.
  - reflexivity.
  - discriminate.
Defined.

(** The loop body reads the input only through the key at hand. *)
Lemma validateField_same_key (fenv : nat -> value -> outcome bool)
      (n : value -> outcome ResultObject) (input1 input2 : value)
      (key : string) (rule : value) :
  nullish input1 = nullish input2 ->
  assoc key (ownProps input1) = assoc key (ownProps input2) ->
  validateField fenv n input1 key rule = validateField fenv n input2 key rule.
Proof.
  intros Hn Hk. unfold validateField, hasOwnProperty.
  now rewrite !getProp_cases, Hn, Hk.
Qed.

(** X4: [validate] reads the input only at the keys of the schema: two
    inputs that have the same own properties at those keys (and are both
    objects, or both [undefined] or [null]) get the same result, whatever
    other properties they have. *)
Theorem validate_reads_schema_keys_only
        (fenv : nat -> value -> outcome bool) (schema input1 input2 : value) :
  nullish input1 = nullish input2 ->
  (forall key, In key (keys (forInEntries schema)) ->
               assoc key (ownProps input1) = assoc key (ownProps input2)) ->
  validate fenv schema input1 = validate fenv schema input2.
Proof.
  intros Hn Hk. unfold validate. rewrite !validateHelper_forIn.
  generalize (@nil (string * ValidationResult)).
  induction (forInEntries schema) as [|[key rule] rest IH];
    intros result; simpl; auto.
  rewrite (validateField_same_key fenv _ input1 input2 key rule Hn).
  - destruct (validateField fenv _ input2 key rule); simpl; auto.
    apply IH. intros k Hin. apply Hk. now right.
  - apply Hk. now left.
Qed.

Lemma validate_reads_schema_keys_only_witness :
  validate testEnv testSchema invalidInput
  = validate testEnv testSchema
             (VObj 6 [("extra", VBool true); ("name", VStr "John Doe");
                      ("age", VStr "30");
                      ("email", VStr "john.doe@example.com")]).
Proof.
  apply validate_reads_schema_keys_only.
  - reflexivity.
  - intros key Hin. simpl in Hin.
    destruct Hin as [H | [H | [H | [H | [H | []]]]]]; subst key; reflexivity.
Defined.

(** ** Rules and the shapes the dispatcher tells apart *)

Lemma every_singleton (f : value -> outcome bool) (x : value) :
  (b <- every f [x] ;; Ok (RBool b)) = (b <- f x ;; Ok (RBool b)).
Proof. simpl. destruct (f x) as [[|]|]; reflexivity. Qed.

(** X5: a list rule with a single rule that is not itself a list gives the
    same entry as that rule alone when the key is an own property of the
    input and its value is not a non-null object; when the key is missing
    the list gives [false], also for the tag ["undefined"], which alone
    would give [true]. *)
Theorem singleton_list_rule
        (fenv : nat -> value -> outcome bool)
        (n n' : value -> outcome ResultObject)
        (input : value) (key : string) (a : nat) (r : value) :
  isArray r = false ->
  (forall v, assoc key (ownProps input) = Some v ->
             isNonNullObject v = false ->
             validateField fenv n input key (VArr a [r])
             = validateField fenv n' input key r)
  /\ (nullish input = false -> hasOwnProperty input key = false ->
      validateField fenv n input key (VArr a [r]) = Ok (RBool false)).
Proof.
  intros Hr. split.
  - intros v Hv Hobj.
    rewrite (validateField_list_rule fenv n _ _ a [r] _ Hv), Hobj.
    unfold validateCompositeValidator. cbn [validatorArray].
    rewrite every_singleton.
    destruct (own_property _ _ _ Hv) as [Hget Hown].
    assert (Hn : nullish input = false).
    { destruct input; try reflexivity; discriminate Hv. }
    destruct r as [| | | |t | | |b props|b rules|f]; try discriminate Hr.
    5: { rewrite (validateField_tag fenv n' input key t Hn), Hv.
         reflexivity. }
    7: { destruct (assoc "enum" props) as [e|] eqn:Henum.
         - rewrite (validateField_enum_descriptor fenv n' _ _ b _ _ _ Hv Henum).
           unfold compositeCheck, propIn, hasOwnProperty. simpl.
           now rewrite Henum.
         - destruct (assoc "itemType" props) as [t|] eqn:Hitem.
           + rewrite (validateField_array_descriptor
                        fenv n' _ _ b _ _ _ Hv Henum Hitem).
             unfold compositeCheck, propIn, hasOwnProperty. simpl.
             now rewrite Henum, Hitem.
           + rewrite (validateField_nested_schema
                        fenv n' _ _ b _ _ Hv Henum Hitem), Hobj.
             unfold compositeCheck, propIn, hasOwnProperty. simpl.
             now rewrite Henum, Hitem. }
    7: { unfold validateField. rewrite Hget. simpl. now rewrite Hown. }
    all: unfold validateField; rewrite Hget; simpl; rewrite Hown; simpl;
      rewrite ?andb_false_r; simpl;
      destruct v; try discriminate Hobj; reflexivity.
  - intros Hn Hown. apply validateField_absent; auto; discriminate.
Qed.

Lemma singleton_list_rule_witness :
  validateField testEnv (fun _ => Ok []) (VObj 3 [("price", VNum 12%float)])
                "price" (VArr 7 [VFun 0])
  = validateField testEnv (fun _ => Ok []) (VObj 3 [("price", VNum 12%float)])
                  "price" (VFun 0).
Proof.
  destruct (singleton_list_rule testEnv (fun _ => Ok []) (fun _ => Ok [])
              (VObj 3 [("price", VNum 12%float)]) "price" 7 (VFun 0))
    as [H _].
  - reflexivity.
  - apply (H (VNum 12%float)); reflexivity.
Defined.

(** X6: a rule object that has an [enum] member is an enum descriptor
    whatever else it holds and whatever the value is: for a key that is an
    own property of the input, the entry is whether the values of the enum
    include the value of the key (an [itemType] member beside it is not
    consulted and an object value is not walked), and the dispatcher throws
    a [TypeError] when the enum is [undefined] or [null]. *)
Theorem enum_member_decides_dispatch
        (fenv : nat -> value -> outcome bool)
        (n : value -> outcome ResultObject) (input : value) (key : string)
        (a : nat) (props : list (string * value)) (e v : value) :
  assoc "enum" props = Some e ->
  assoc key (ownProps input) = Some v ->
  validateField fenv n input key (VObj a props)
  = (vs <- objectValues e ;; Ok (RBool (includes vs v))).
Proof.
  intros Henum Hv.
  rewrite (validateField_enum_descriptor fenv n _ _ a _ _ _ Hv Henum).
  unfold validateEnum. destruct (objectValues e); reflexivity.
Qed.

Lemma enum_member_decides_dispatch_witness :
  validateField testEnv (fun _ => Ok [])
                (VObj 3 [("kind", VObj 8 [("A", VStr "a")])]) "kind"
                (VObj 9 [("itemType", VStr "string"); ("enum", abEnum)])
  = (vs <- objectValues abEnum ;;
     Ok (RBool (includes vs (VObj 8 [("A", VStr "a")])))).
Proof.
  apply enum_member_decides_dispatch; reflexivity.
Defined.

(** X7: an item rule that is neither a string nor an object (a number, a
    boolean, [undefined], [null], ...) makes the array checker throw a
    [TypeError] on every array, the empty one included, because the probe
    ["enum" in itemType] comes before the elements are visited; through the
    dispatcher, a key with such an array descriptor throws when its value
    is an array and gets [false] when it is not. *)
Theorem malformed_item_rule_throws
        (fenv : nat -> value -> outcome bool) (itemType : value) :
  isItemRule itemType = false ->
  (forall a items,
      validateArray fenv (VArr a items) itemType = Throw TypeError)
  /\ (forall n input key b props v,
         assoc "enum" props = None ->
         assoc "itemType" props = Some itemType ->
         assoc key (ownProps input) = Some v ->
         validateField fenv n input key (VObj b props)
         = if isArray v then Throw TypeError else Ok (RBool false)).
Proof.
  intros Hrule.
  assert (Harr : forall a items,
             validateArray fenv (VArr a items) itemType = Throw TypeError).
  { intros a items. destruct itemType; try discriminate Hrule; reflexivity. }
  split; [exact Harr|].
  intros n input key b props v Henum Hitem Hv.
  rewrite (validateField_array_descriptor fenv n _ _ b _ _ _ Hv Henum Hitem).
  destruct v; try reflexivity. simpl isArray. cbv iota. now rewrite Harr.
Qed.

Lemma malformed_item_rule_throws_witness :
  validateArray testEnv (VArr 5 []) VUndefined = Throw TypeError.
Proof.
  destruct (malformed_item_rule_throws testEnv VUndefined) as [H _].
  - reflexivity.
  - apply H.
Defined.

(** X8: an element of a list rule that the composite checker does not
    recognise (a number, a boolean, [undefined], [null], a nested list, an
    object with neither [enum] nor [itemType]) rejects every value without
    throwing, so a list that holds one never accepts a value. *)
Theorem unsupported_element_rejects
        (fenv : nat -> value -> outcome bool) (v r : value) :
  unsupportedElement r = true ->
  compositeCheck fenv v r = Ok false
  /\ (forall a pre post,
         validateCompositeValidator fenv v (VArr a (pre ++ r :: post))
         <> Ok true).
Proof.
  intros Hr.
  assert (Hcheck : compositeCheck fenv v r = Ok false).
  { destruct r as [| | |m| | | |b props|b rules|]; try discriminate Hr;
      simpl; rewrite ?andb_false_r; simpl; try reflexivity.
    - simpl in Hr. unfold propIn, hasOwnProperty. simpl.
      destruct (assoc "enum" props); [discriminate Hr|].
      destruct (assoc "itemType" props); [discriminate Hr|]. reflexivity.
    - unfold propIn, hasOwnProperty. simpl.
      destruct (array_has_no_probe 0 rules (lengthOf rules)) as [-> ->].
      reflexivity. }
  split; [exact Hcheck|].
  intros a pre post H. unfold validateCompositeValidator in H. simpl in H.
  apply every_true_iff in H. rewrite Forall_forall in H.
  specialize (H r (in_elt r pre post)). congruence.
Qed.

Lemma unsupported_element_rejects_witness :
  validateCompositeValidator testEnv (VNum 5%float)
                             (VArr 7 [VStr "number"; VArr 8 [VStr "number"]])
  <> Ok true.
Proof.
  destruct (unsupported_element_rejects
              testEnv (VNum 5%float) (VArr 8 [VStr "number"])) as [_ H].
  - reflexivity.
  - apply (H 7 [VStr "number"] []).
Defined.

(** X9: the empty list rule: for a key that is an own property of the
    input, the entry is [true] when the value is not a non-null object (no
    rule is left to reject it) and the empty tree when it is one (the list
    is walked as a schema without keys). *)
Theorem empty_list_rule_entry
        (fenv : nat -> value -> outcome bool) (input : value) (key : string)
        (a : nat) (v : value) :
  assoc key (ownProps input) = Some v ->
  validateField fenv (fun w => validateHelper fenv w (VArr a []))
                input key (VArr a [])
  = Ok (if isNonNullObject v then RTree [] else RBool true).
Proof.
  intros Hv. rewrite (validateField_list_rule fenv _ _ _ a [] _ Hv).
  destruct (isNonNullObject v); reflexivity.
Qed.

Lemma empty_list_rule_entry_witness :
  validateField testEnv (fun w => validateHelper testEnv w (VArr 7 []))
                (VObj 3 [("f", VStr "anything")]) "f" (VArr 7 [])
  = Ok (RBool true).
Proof.
  apply (empty_list_rule_entry testEnv (VObj 3 [("f", VStr "anything")])
           "f" 7 (VStr "anything")).
  reflexivity.
Defined.

(** X10: a rule that is a number, a boolean, a symbol, a bigint or
    [undefined] gives [false] for every key of an input object, present or
    not, without throwing.  The rule [null] gives [false] too, except for a
    key whose value is a non-null object: there the branch of nested
    schemas takes it ([typeof null] is ["object"]) and the entry is the
    empty tree. *)
Theorem unhandled_rule_entry
        (fenv : nat -> value -> outcome bool) (input : value) (key : string) :
  nullish input = false ->
  (forall n r, unhandledPrimitive r = true ->
               validateField fenv n input key r = Ok (RBool false))
  /\ (forall v, assoc key (ownProps input) = Some v ->
                validateField fenv (fun w => validateHelper fenv w VNull)
                              input key VNull
                = Ok (if isNonNullObject v then RTree [] else RBool false))
  /\ (hasOwnProperty input key = false ->
      forall n, validateField fenv n input key VNull = Ok (RBool false)).
Proof.
  intros Hn. split; [|split].
  - intros n r Hr. unfold validateField.
    rewrite (getProp_not_nullish input key Hn).
    destruct r; try discriminate Hr; simpl;
      destruct (hasOwnProperty input key); simpl;
      rewrite ?andb_false_r; reflexivity.
  - intros v Hv. destruct (own_property _ _ _ Hv) as [Hget Hown].
    unfold validateField. rewrite Hget. simpl. rewrite Hown. simpl.
    unfold isNonNullObject.
    destruct (String.eqb (typeof v) "object");
      destruct (strictEquals v VNull); reflexivity.
  - intros Hown n. apply validateField_absent; auto; discriminate.
Qed.

Lemma unhandled_rule_entry_witness :
  validateField testEnv (fun w => validateHelper testEnv w VNull)
                (VObj 3 [("user", VObj 4 [("name", VStr "Bob")])]) "user"
                VNull
  = Ok (RTree []).
Proof.
  destruct (unhandled_rule_entry
              testEnv (VObj 3 [("user", VObj 4 [("name", VStr "Bob")])])
              "user") as [_ [H _]].
  - reflexivity.
  - apply (H (VObj 4 [("name", VStr "Bob")])). reflexivity.
Defined.

(** X11: for a rule that is a function and a key that is an own property of
    the input, the entry is what the function returns on the value of the
    key; an exception of the function is not caught: it leaves the loop,
    wherever the key stands in the schema, and [validate]. *)
Theorem predicate_rule_entry
        (fenv : nat -> value -> outcome bool)
        (nested : value -> value -> outcome ResultObject)
        (input : value) (key : string) (f : nat) (v : value) :
  assoc key (ownProps input) = Some v ->
  validateField fenv (fun w => nested w (VFun f)) input key (VFun f)
  = (isValid <- fenv f v ;; Ok (RBool isValid))
  /\ (forall e before rest result reached,
         fenv f v = Throw e ->
         validateEntries fenv nested input before result = Ok reached ->
         validateEntries fenv nested input (before ++ (key, VFun f) :: rest)
                         result
         = Throw e)
  /\ (forall e c,
         fenv f v = Throw e ->
         validate fenv (VObj c [(key, VFun f)]) input = Throw e).
Proof.
  intros Hv. destruct (own_property _ _ _ Hv) as [Hget Hown].
  assert (Hfield : forall n, validateField fenv n input key (VFun f)
                             = (isValid <- fenv f v ;; Ok (RBool isValid))).
  { intros n. unfold validateField. rewrite Hget. simpl. now rewrite Hown. }
  split; [apply Hfield|]. split.
  - intros e before rest result reached He Hbefore.
    rewrite validateEntries_app, Hbefore. simpl.
    apply validateEntries_throw. now rewrite Hfield, He.
  - intros e c He. unfold validate. rewrite validateHelper_forIn.
    apply validateEntries_throw. now rewrite Hfield, He.
Qed.

Lemma predicate_rule_entry_witness :
  validate testEnv (VObj 1 [("id", VFun 2)]) (VObj 3 [("id", VNum 831%float)])
  = Throw (UserError 2).
Proof.
  destruct (predicate_rule_entry testEnv (validateHelper testEnv)
              (VObj 3 [("id", VNum 831%float)]) "id" 2 (VNum 831%float))
    as [_ [_ H]].
  - reflexivity.
  - apply H. reflexivity.
Defined.

(** X12: the keys of a schema are validated independently: when [validate]
    returns, the entry of each key is what the loop body computes for that
    key and its rule alone, whatever the other keys and their rules are
    (for a schema whose property names are distinct). *)
Theorem entry_is_field_outcome
        (fenv : nat -> value -> outcome bool)
        (schema input : value) (res : ResultObject)
        (key : string) (rule : value) :
  NoDup (keys (forInEntries schema)) ->
  In (key, rule) (forInEntries schema) ->
  validate fenv schema input = Ok res ->
  exists r,
    validateField fenv (fun v => validate fenv rule v) input key rule = Ok r
    /\ assoc key res = Some r.
Proof.
  intros Hnd Hin Hres. unfold validate in Hres.
  rewrite validateHelper_forIn in Hres.
  exact (validateEntries_stored _ _ _ _ _ _ _ _ Hres Hnd Hin).
Qed.

Lemma entry_is_field_outcome_witness :
  exists r,
    validateField testEnv (fun v => validate testEnv (VStr "number") v)
                  invalidInput "age" (VStr "number") = Ok r
    /\ assoc "age" [("name", RBool true); ("age", RBool false);
                    ("email", RBool true); ("other", RBool true);
                    ("sx", RBool false)] = Some r.
Proof.
  apply (entry_is_field_outcome testEnv testSchema invalidInput).
  - repeat constructor; simpl; intuition discriminate.
  - simpl. tauto.
  - reflexivity.
Defined.

(** The functions of [priceEnv] return on every argument. *)
Lemma priceEnv_returns (a : nat) (v : value) :
  exists b, priceEnv a v = Ok b.
Proof.
  unfold priceEnv. destruct v; simpl; eauto.
  destruct (NilEmpty.uint_of_string s); eauto.
Qed.

Lemma validate_returns_witness :
  exists res, validate priceEnv nestedTestSchema nestedInput = Ok res.
Proof.
  apply (validate_returns priceEnv priceEnv_returns).
  - reflexivity.
  - reflexivity.
Defined.

(** ** The helper [validateNestedObject] *)

Lemma map_snd_indexed {A} (i : nat) (l : list A) :
  map snd (indexed i l) = l.
Proof.
  revert i. induction l as [|x l IH]; intros i; simpl; auto.
  now rewrite IH.
Qed.

(** [validateNestedObject] is [every] over the values of its argument, with
    itself for the recursive call. *)
Lemma validateNestedObject_values (obj : value) :
  validateNestedObject obj
  = (vs <- objectValues obj ;;
     every (nestedObjectCheck validateNestedObject) vs).
Proof.
  destruct obj as [| | | |s | | |a props|a items|]; try reflexivity.
  - simpl. rewrite map_snd_indexed. apply every_ext.
    intros x Hx. unfold codeUnits in Hx. apply in_map_iff in Hx.
    destruct Hx as [c [<- _]]. reflexivity.
  - simpl. induction props as [|[k v] props IH]; simpl; auto.
    unfold nestedObjectCheck at 1.
    destruct (if strictEquals v (VBool true) then _ else _) as [[|]|];
      simpl; auto.
  - simpl. rewrite map_snd_indexed.
    induction items as [|v items IH]; simpl; auto.
    unfold nestedObjectCheck at 1.
    destruct (if strictEquals v (VBool true) then _ else _) as [[|]|];
      simpl; auto.
Qed.

(** Induction on results, with the induction hypothesis for the entries of
    a tree. *)
Lemma result_induction (P : ValidationResult -> Prop) :
  (forall b, P (RBool b)) ->
  (forall fields, Forall (fun entry => P (snd entry)) fields ->
                  P (RTree fields)) ->
  forall r, P r.
Proof.
  intros Hbool Htree.
  exact (fix go (r : ValidationResult) : P r :=
           match r with
           | RBool b => Hbool b
           | RTree fields =>
               Htree fields
                     ((fix entries (l : list (string * ValidationResult))
                       : Forall (fun entry => P (snd entry)) l :=
                         match l with
                         | [] => Forall_nil _
                         | (k, r') :: l' =>
                             Forall_cons (k, r') (go r') (entries l')
                         end) fields)
           end).
Qed.

(** On a value that holds a result, the callback of [validateNestedObject]
    answers whether every boolean of the result is [true]. *)
Lemma nestedObjectCheck_of_result (r : ValidationResult) :
  forall v, represents r v ->
            nestedObjectCheck validateNestedObject v = Ok (allTrue r).
Proof.
  induction r as [b|fields IH] using result_induction; intros v Hv.
  - simpl in Hv. subst v. destruct b; reflexivity.
  - simpl in Hv. destruct Hv as [a [props [-> Hentries]]].
    change (nestedObjectCheck validateNestedObject (VObj a props))
      with (validateNestedObject (VObj a props)).
    rewrite validateNestedObject_values.
    change (objectValues (VObj a props)) with (Ok (map snd props)).
    cbn [bind allTrue]. revert props Hentries.
    induction IH as [|[k r] fields Hr _ IHfields]; intros props Hentries.
    + destruct props; [reflexivity | contradiction].
    + destruct props as [|[k' v'] props]; [contradiction|].
      destruct Hentries as [_ [Hv' Hrest]].
      simpl. rewrite (Hr v' Hv'). simpl.
      destruct (allTrue r); simpl; auto.
Qed.

(** X13: applied to an object that holds a result tree of [validate] (or
    any tree of booleans), [validateNestedObject] returns, and answers
    [true] exactly when every boolean of the tree, at any depth, is
    [true]. *)
Theorem validateNestedObject_of_result
        (fields : ResultObject) (v : value) :
  represents (RTree fields) v ->
  validateNestedObject v = Ok (allTrue (RTree fields)).
Proof.
  intros Hv. rewrite <- (nestedObjectCheck_of_result (RTree fields) v Hv).
  simpl in Hv. destruct Hv as [a [props [-> _]]]. reflexivity.
Qed.

Lemma validateNestedObject_of_result_witness :
  validateNestedObject
    (VObj 60 [("user", VObj 61 [("name", VBool true); ("age", VBool true)]);
              ("id", VBool false)])
  = Ok (allTrue (RTree [("user", RTree [("name", RBool true);
                                        ("age", RBool true)]);
                        ("id", RBool false)])).
Proof.
  apply validateNestedObject_of_result.
  simpl. eexists. eexists. split; [reflexivity|].
  split; [reflexivity|]. split.
  - eexists. eexists. split; [reflexivity|]. simpl. tauto.
  - simpl. tauto.
Defined.

Lemma every_app_accepted (f : value -> outcome bool) (pre l : list value) :
  Forall (fun x => f x = Ok true) pre -> every f (pre ++ l) = every f l.
Proof.
  induction 1 as [|x pre Hx _ IH]; simpl; auto.
  now rewrite Hx.
Qed.

(** X14: [validateNestedObject] compares with [true] strictly and walks
    whatever has [typeof] ["object"]: after values it accepts, a member
    that is [null] makes it throw a [TypeError] (the recursive call reads
    the values of [null]), while a member that is any other value than
    [true] and is not of type ["object"] ([false], [undefined], [1],
    ["true"], a function) makes it answer [false]. *)
Theorem validateNestedObject_members
        (a : nat) (pre post : list (string * value)) (k : string) :
  Forall (fun x => nestedObjectCheck validateNestedObject x = Ok true)
         (map snd pre) ->
  validateNestedObject (VObj a (pre ++ (k, VNull) :: post)) = Throw TypeError
  /\ (forall v, strictEquals v (VBool true) = false ->
                String.eqb (typeof v) "object" = false ->
                validateNestedObject (VObj a (pre ++ (k, v) :: post))
                = Ok false).
Proof.
  intros Hpre. split.
  - rewrite validateNestedObject_values. simpl objectValues. simpl bind.
    rewrite map_app, (every_app_accepted _ _ _ Hpre). reflexivity.
  - intros v Htrue Hobj.
    rewrite validateNestedObject_values. simpl objectValues. simpl bind.
    rewrite map_app, (every_app_accepted _ _ _ Hpre). simpl.
    unfold nestedObjectCheck. now rewrite Htrue, Hobj.
Qed.

Lemma validateNestedObject_members_witness :
  validateNestedObject (VObj 60 [("name", VBool true); ("age", VNull)])
  = Throw TypeError.
Proof.
  destruct (validateNestedObject_members 60 [("name", VBool true)] [] "age")
    as [H _].
  - repeat constructor.
  - exact H.
Defined.

(** ** List rules that hold an array descriptor *)

(** X15: a list rule that holds an array descriptor never gives the entry
    [true] through the dispatcher: a value that is an array is a non-null
    object, for which the list is walked as a nested schema (the entry is a
    tree or the walk throws), and on any other value the array descriptor
    rejects. *)
Theorem list_with_array_descriptor_never_true
        (fenv : nat -> value -> outcome bool)
        (n : value -> outcome ResultObject) (input : value) (key : string)
        (a : nat) (pre post : list value) (b : nat)
        (props : list (string * value)) (itemType v : value) :
  assoc "enum" props = None ->
  assoc "itemType" props = Some itemType ->
  assoc key (ownProps input) = Some v ->
  validateField fenv n input key (VArr a (pre ++ VObj b props :: post))
  <> Ok (RBool true).
Proof.
  intros Henum Hitem Hv.
  rewrite (validateField_list_rule fenv n _ _ a _ _ Hv).
  destruct (isNonNullObject v) eqn:Hobj.
  - destruct (n v); simpl; discriminate.
  - intros H. apply bind_Ok in H. destruct H as [isValid [Hall H]].
    inversion H; subst isValid.
    unfold validateCompositeValidator in Hall. simpl in Hall.
    apply every_true_iff in Hall. rewrite Forall_forall in Hall.
    specialize (Hall (VObj b props) (in_elt _ pre post)).
    unfold compositeCheck, propIn, hasOwnProperty in Hall. simpl in Hall.
    rewrite Henum, Hitem in Hall. simpl in Hall.
    destruct v; try discriminate Hall. discriminate Hobj.
Qed.

Lemma list_with_array_descriptor_never_true_witness :
  validateField testEnv (fun w => validateHelper testEnv w (VArr 7 []))
                (VObj 3 [("sx", VArr 5 [VStr "a"])]) "sx"
                (VArr 7 [VObj 2 [("itemType", VStr "string")]])
  <> Ok (RBool true).
Proof.
  apply (list_with_array_descriptor_never_true
           testEnv _ (VObj 3 [("sx", VArr 5 [VStr "a"])]) "sx" 7 [] [] 2
           [("itemType", VStr "string")] (VStr "string") (VArr 5 [VStr "a"]));
    reflexivity.
Defined.
